(** * The SentencePiece command-line drivers: configuration resolution

    A shallow embedding of [src/spm_normalize_main.cc] and of the
    normalizer/denormalizer part of [src/spm_train_main.cc].

    Both programs are straight-line drivers around collaborators that live
    in other translation units (the model loader, the charsmap builder, the
    normalizer, the line-oriented file streams, the trainer).  The drivers
    are embedded as computations in a small trace-and-abort monad: every
    call into a collaborator is recorded as an [Event], and a failed
    [CHECK_OK] or [CHECK], or a [LOG(FATAL)] that the minimum log level lets
    through, ends the run with an [Abort].  The collaborators themselves
    are a record of functions, so every theorem holds for any behaviour
    they may have. *)

From Stdlib Require Import String List Bool ZArith Lia.
Import ListNotations.
Local Open Scope string_scope.
Local Open Scope list_scope.

(** ** Common vocabulary *)

(** [std::string::empty()]. *)
Definition empty (s : string) : bool :=
  match s with
  | EmptyString => true
  | String _ _ => false
  end.

(** [util::Status]: either OK or an error carrying its message. *)
Inductive Status : Type :=
| OkStatus
| ErrorStatus (message : string).

Definition ok (st : Status) : bool :=
  match st with
  | OkStatus => true
  | ErrorStatus _ => false
  end.

(** The [NormalizerSpec] protocol-buffer message.  Every field is optional:
    [None] is "not set" (the has-bit is clear), [Some v] is "set to v". *)
Record NormalizerSpec : Type := mkNormalizerSpec {
  name : option string;
  precompiled_charsmap : option string;
  add_dummy_prefix : option bool;
  remove_extra_whitespaces : option bool;
  escape_whitespaces : option bool;
  normalization_rule_tsv : option string
}.

(** A default-constructed message: no field is set. *)
Definition NormalizerSpec_new : NormalizerSpec :=
  mkNormalizerSpec None None None None None None.

Definition set_name (v : string) (s : NormalizerSpec) : NormalizerSpec :=
  mkNormalizerSpec (Some v) (precompiled_charsmap s) (add_dummy_prefix s)
    (remove_extra_whitespaces s) (escape_whitespaces s)
    (normalization_rule_tsv s).

Definition set_add_dummy_prefix (v : bool) (s : NormalizerSpec)
  : NormalizerSpec :=
  mkNormalizerSpec (name s) (precompiled_charsmap s) (Some v)
    (remove_extra_whitespaces s) (escape_whitespaces s)
    (normalization_rule_tsv s).

Definition set_remove_extra_whitespaces (v : bool) (s : NormalizerSpec)
  : NormalizerSpec :=
  mkNormalizerSpec (name s) (precompiled_charsmap s) (add_dummy_prefix s)
    (Some v) (escape_whitespaces s) (normalization_rule_tsv s).

Definition set_escape_whitespaces (v : bool) (s : NormalizerSpec)
  : NormalizerSpec :=
  mkNormalizerSpec (name s) (precompiled_charsmap s) (add_dummy_prefix s)
    (remove_extra_whitespaces s) (Some v) (normalization_rule_tsv s).

Definition set_normalization_rule_tsv (v : string) (s : NormalizerSpec)
  : NormalizerSpec :=
  mkNormalizerSpec (name s) (precompiled_charsmap s) (add_dummy_prefix s)
    (remove_extra_whitespaces s) (escape_whitespaces s) (Some v).

(** A generated getter returns the value that was set, or else the default
    the schema declares for the field.  The schema file is not among the
    sources, so the default is an argument. *)
Definition get {A : Type} (schema_default : A) (field : option A) : A :=
  match field with
  | Some v => v
  | None => schema_default
  end.

(** [spec.precompiled_charsmap()]: a [bytes] field without a declared
    default reads as the empty string when it is not set. *)
Definition precompiled_charsmap_bytes (s : NormalizerSpec) : string :=
  get "" (precompiled_charsmap s).

(** [ModelProto], as far as the drivers look into it. *)
Record ModelProto : Type := mkModelProto {
  normalizer_spec : NormalizerSpec
}.

(** [Builder::CharsMap] is a [std::map] from code-point sequences to
    code-point sequences; an association list in key order stands for it. *)
Definition Chars : Type := list N.
Definition CharsMap : Type := list (Chars * Chars).

(** [normalizer::Normalizer] keeps the spec it was constructed from. *)
Record Normalizer : Type := mkNormalizer {
  spec_ : NormalizerSpec
}.

(** ** Runs: traces and aborts *)

(** The calls the normalize driver makes into its collaborators, in
    program order. *)
Inductive Event : Type :=
| EvLoad (filename : string)
| EvPopulateNormalizerSpec (spec : NormalizerSpec)
| EvDecompileCharsMap (blob : string)
| EvSaveCharsMap (filename : string) (chars_map : CharsMap)
| EvNormalizer (spec : NormalizerSpec)
| EvNewWritableFile (filename : string)
| EvNewReadableFile (filename : string)
| EvReadLine (line : string)
| EvNormalize (line : string)
| EvWriteLine (line : string).

(** How a run can end before [main] returns. *)
Inductive Abort : Type :=
| FatalLog (message : string)
| CheckOkFailed (st : Status)
| CheckFailed (condition : string).

Inductive Result (A : Type) : Type :=
| Done (a : A)
| Died (why : Abort).
Arguments Done {A} a.
Arguments Died {A} why.

(** A computation is the trace it leaves and the way it ends.  [E] is the
    type of the events of the program at hand. *)
Definition Proc (E A : Type) : Type := (list E * Result A)%type.

Definition ret {E A : Type} (a : A) : Proc E A := ([], Done a).

Definition bind {E A B : Type} (m : Proc E A) (k : A -> Proc E B)
  : Proc E B :=
  match m with
  | (t, Done a) => let (t', r) := k a in (t ++ t', r)
  | (t, Died why) => (t, Died why)
  end.

Definition emit {E : Type} (e : E) : Proc E unit := ([e], Done tt).

Definition die {E A : Type} (why : Abort) : Proc E A := ([], Died why).

Definition trace {E A : Type} (m : Proc E A) : list E := fst m.
Definition result {E A : Type} (m : Proc E A) : Result A := snd m.

Declare Scope proc_scope.
Delimit Scope proc_scope with proc.
Notation "x <- m ;; k" := (bind m (fun x => k))
  (at level 61, m at next level, right associativity) : proc_scope.
Notation "m ;; k" := (bind m (fun _ => k))
  (at level 61, right associativity) : proc_scope.
Local Open Scope proc_scope.

(** [logging::LogSeverity]. *)
Definition LOG_INFO : Z := 0.
Definition LOG_WARNING : Z := 1.
Definition LOG_ERROR : Z := 2.
Definition LOG_FATAL : Z := 3.

(** The macro [LOG(severity)] of [common.h], a header that is not among
    the sources.  The drivers have no [return] or [exit] of their own after
    it: whether a run ends there is the macro's doing.  The macro is gated
    by [logging::GetMinLogLevel()], which --minloglevel sets: when that
    level is above the severity it does nothing at all, neither message nor
    abort, and the statement after it runs; otherwise it writes the message
    and, at severity FATAL, ends the process. *)
Definition LOG {E : Type} (min_log_level severity : Z) (message : string)
  : Proc E unit :=
  if (min_log_level >? severity)%Z then ret tt
  else if (severity >=? LOG_FATAL)%Z then die (FatalLog message)
  else ret tt.

(** Modelled from the spec: the macro [CHECK_OK(expr)] of [common.h], which
    is not among the sources.  Section 7 has every construction-time
    failure surfaced to the caller and never swallowed, so the macro ends
    the run with the status of [expr] unless that status is OK. *)
Definition CHECK_OK {E : Type} (st : Status) : Proc E unit :=
  if ok st then ret tt else die (CheckOkFailed st).

(** Modelled from the spec: the macro [CHECK(condition)] of [common.h].  It
    ends the run unless the condition holds. *)
Definition CHECK {E : Type} (condition : string) (holds : bool)
  : Proc E unit :=
  if holds then ret tt else die (CheckFailed condition).

(** Projections of a trace. *)
Definition lines_read (t : list Event) : list string :=
  flat_map (fun e => match e with EvReadLine l => [l] | _ => [] end) t.

Definition lines_written (t : list Event) : list string :=
  flat_map (fun e => match e with EvWriteLine l => [l] | _ => [] end) t.

Definition files_opened (t : list Event) : list string :=
  flat_map (fun e => match e with EvNewReadableFile f => [f] | _ => [] end) t.

Definition engines_built (t : list Event) : list NormalizerSpec :=
  flat_map (fun e => match e with EvNormalizer s => [s] | _ => [] end) t.

(** The events through which input text passes. *)
Definition touches_text (e : Event) : bool :=
  match e with
  | EvNormalizer _ | EvNewReadableFile _ | EvReadLine _
  | EvNormalize _ | EvWriteLine _ => true
  | _ => false
  end.

(** A trace through which no text passes. *)
Definition textless (t : list Event) : Prop :=
  Forall (fun e => touches_text e = false) t.

(** The read and write events of a trace, in order. *)
Definition line_io (t : list Event) : list Event :=
  filter (fun e => match e with
                   | EvReadLine _ | EvWriteLine _ => true
                   | _ => false
                   end) t.

(** ** [spm_normalize_main.cc] *)

Module spm_normalize.

(** The values of the flags the file declares with [STPC_FLAG], as
    [ParseCommandLineFlags] leaves them. *)
Record Flags : Type := mkFlags {
  FLAGS_model : string;
  FLAGS_use_internal_normalization : bool;
  FLAGS_normalization_rule_name : string;
  FLAGS_normalization_rule_tsv : string;
  FLAGS_remove_extra_whitespaces : bool;
  FLAGS_decompile : bool;
  FLAGS_input : string;
  FLAGS_output : string
}.

(** The declared defaults (lines 26-39): what each flag holds when the
    command line does not mention it. *)
Definition default_flags : Flags :=
  {| FLAGS_model := "";
     FLAGS_use_internal_normalization := false;
     FLAGS_normalization_rule_name := "";
     FLAGS_normalization_rule_tsv := "";
     FLAGS_remove_extra_whitespaces := true;
     FLAGS_decompile := false;
     FLAGS_input := "";
     FLAGS_output := "" |}.

(** The collaborators of the driver.  Functions with an out-parameter
    return it next to their status. *)
Record Collaborators : Type := mkCollaborators {
  (** [SentencePieceProcessor::Load], then [model_proto()] *)
  Processor_Load : string -> Status * ModelProto;
  (** [SentencePieceTrainer::PopulateNormalizerSpec(&spec)] *)
  PopulateNormalizerSpec : NormalizerSpec -> Status * NormalizerSpec;
  (** [Builder::DecompileCharsMap(blob, &chars_map)] *)
  DecompileCharsMap : string -> Status * CharsMap;
  (** [Builder::SaveCharsMap(filename, chars_map)] *)
  SaveCharsMap : string -> CharsMap -> Status;
  (** [Normalizer::Normalize(line)], the overload returning the text *)
  Normalize : Normalizer -> string -> string;
  (** [filesystem::NewWritableFile(filename)->status()] *)
  NewWritableFile : string -> Status;
  (** [filesystem::NewReadableFile(filename)]: its [status()] and the lines
      successive [ReadLine] calls yield before returning false *)
  NewReadableFile : string -> Status * list string;
  (** [logging::GetMinLogLevel()]: 0 unless --minloglevel says otherwise *)
  GetMinLogLevel : Z
}.

(** The file name that stands for standard input (line 100: "empty means
    that read from stdin"). *)
Definition stdin_filename : string := "".

Section Driver.

Variable env : Collaborators.
Variable flags : Flags.

(** Lines 51-59: the input file names before the stdin default.  [argv] is
    what flag parsing left: the program name, then the positional
    arguments. *)
Definition main_rest_args (argv : list string) : list string :=
  if empty (FLAGS_input flags)
  then map (fun i => nth i argv "") (seq 1 (length argv - 1))
  else [FLAGS_input flags].

(** Lines 61-78: the spec of the first rule source that is supplied, in the
    order model, rule TSV, rule name.  When none is supplied and
    [LOG(FATAL)] lets the run go on, the spec is still the
    default-constructed one of line 61. *)
Definition main_load_spec : Proc Event NormalizerSpec :=
  let spec := NormalizerSpec_new in
  if negb (empty (FLAGS_model flags)) then
    emit (EvLoad (FLAGS_model flags)) ;;
    let (st, model_proto) := Processor_Load env (FLAGS_model flags) in
    CHECK_OK st ;;
    ret (normalizer_spec model_proto)
  else if negb (empty (FLAGS_normalization_rule_tsv flags)) then
    let spec :=
      set_normalization_rule_tsv (FLAGS_normalization_rule_tsv flags) spec in
    emit (EvPopulateNormalizerSpec spec) ;;
    let (st, spec) := PopulateNormalizerSpec env spec in
    CHECK_OK st ;;
    ret spec
  else if negb (empty (FLAGS_normalization_rule_name flags)) then
    let spec := set_name (FLAGS_normalization_rule_name flags) spec in
    emit (EvPopulateNormalizerSpec spec) ;;
    let (st, spec) := PopulateNormalizerSpec env spec in
    CHECK_OK st ;;
    ret spec
  else
    LOG (GetMinLogLevel env) LOG_FATAL
      "Sets --model, normalization_rule_tsv, or normalization_rule_name flag." ;;
    ret spec.

(** Lines 80-86: outside "as-is" mode the three behaviour flags of the spec
    are overwritten. *)
Definition main_override_flags (spec : NormalizerSpec) : NormalizerSpec :=
  if negb (FLAGS_use_internal_normalization flags) then
    set_remove_extra_whitespaces (FLAGS_remove_extra_whitespaces flags)
      (set_escape_whitespaces false
         (set_add_dummy_prefix false spec))
  else spec.

(** Lines 61-86: the spec the rest of [main] works with. *)
Definition main_spec : Proc Event NormalizerSpec :=
  spec <- main_load_spec ;;
  ret (main_override_flags spec).

(** Lines 107-109: one pass of the [while] loop per line of the stream. *)
Fixpoint main_read_lines (normalizer : Normalizer) (lines : list string)
  : Proc Event unit :=
  match lines with
  | [] => ret tt
  | line :: lines' =>
      emit (EvReadLine line) ;;
      emit (EvNormalize line) ;;
      emit (EvWriteLine (Normalize env normalizer line)) ;;
      main_read_lines normalizer lines'
  end.

(** Lines 104-110: the [for] loop over the input file names. *)
Fixpoint main_read_files (normalizer : Normalizer) (rest_args : list string)
  : Proc Event unit :=
  match rest_args with
  | [] => ret tt
  | filename :: rest_args' =>
      emit (EvNewReadableFile filename) ;;
      let (st, lines) := NewReadableFile env filename in
      CHECK_OK st ;;
      main_read_lines normalizer lines ;;
      main_read_files normalizer rest_args'
  end.

(** Lines 99-101: the file names the loop runs over. *)
Definition main_input_files (rest_args : list string) : list string :=
  match rest_args with
  | [] => rest_args ++ [stdin_filename]
  | _ :: _ => rest_args
  end.

(** [int main(int argc, char *argv[])], after [ParseCommandLineFlags]. *)
Definition main (argv : list string) : Proc Event Z :=
  let rest_args := main_rest_args argv in
  spec <- main_spec ;;
  (if FLAGS_decompile flags then
     emit (EvDecompileCharsMap (precompiled_charsmap_bytes spec)) ;;
     let (st, chars_map) :=
       DecompileCharsMap env (precompiled_charsmap_bytes spec) in
     CHECK_OK st ;;
     emit (EvSaveCharsMap (FLAGS_output flags) chars_map) ;;
     CHECK_OK (SaveCharsMap env (FLAGS_output flags) chars_map)
   else
     let normalizer := mkNormalizer spec in
     emit (EvNormalizer spec) ;;
     emit (EvNewWritableFile (FLAGS_output flags)) ;;
     CHECK_OK (NewWritableFile env (FLAGS_output flags)) ;;
     let rest_args := main_input_files rest_args in
     main_read_files normalizer rest_args) ;;
  ret 0%Z.

(** The events one line leaves as it passes through the loop body. *)
Definition line_events (normalizer : Normalizer) (line : string)
  : list Event :=
  [EvReadLine line; EvNormalize line;
   EvWriteLine (Normalize env normalizer line)].

End Driver.

(** How many of the three rule sources the command line supplies. *)
Definition sources_supplied (flags : Flags) : nat :=
  (if empty (FLAGS_model flags) then 0 else 1)
  + (if empty (FLAGS_normalization_rule_tsv flags) then 0 else 1)
  + (if empty (FLAGS_normalization_rule_name flags) then 0 else 1).

End spm_normalize.

(** ** [spm_train_main.cc] *)

Module spm_train.

(** The flags [main] reads by name.  The remaining flags only feed the
    trainer spec (lines 215-262); they travel together as [trainer_flags],
    whose type is left open. *)
Record Flags (TrainerFlags : Type) : Type := mkFlags {
  FLAGS_input : string;
  FLAGS_model_prefix : string;
  FLAGS_model_type : string;
  (** a [uint32] *)
  FLAGS_random_seed : Z;
  FLAGS_normalization_rule_name : string;
  FLAGS_normalization_rule_tsv : string;
  FLAGS_denormalization_rule_tsv : string;
  FLAGS_add_dummy_prefix : bool;
  FLAGS_remove_extra_whitespaces : bool;
  trainer_flags : TrainerFlags
}.
Arguments mkFlags {TrainerFlags}.
Arguments FLAGS_input {TrainerFlags}.
Arguments FLAGS_model_prefix {TrainerFlags}.
Arguments FLAGS_model_type {TrainerFlags}.
Arguments FLAGS_random_seed {TrainerFlags}.
Arguments FLAGS_normalization_rule_name {TrainerFlags}.
Arguments FLAGS_normalization_rule_tsv {TrainerFlags}.
Arguments FLAGS_denormalization_rule_tsv {TrainerFlags}.
Arguments FLAGS_add_dummy_prefix {TrainerFlags}.
Arguments FLAGS_remove_extra_whitespaces {TrainerFlags}.
Arguments trainer_flags {TrainerFlags}.

(** The calls the training driver makes, in program order. *)
Inductive Event (TrainerSpec : Type) : Type :=
| EvSetRandomGeneratorSeed (seed : Z)
| EvSetTrainerSpecFromFlags
| EvPopulateModelTypeFromString (model_type : string)
| EvTrain (trainer_spec : TrainerSpec)
          (normalizer_spec denormalizer_spec : NormalizerSpec).
Arguments EvSetRandomGeneratorSeed {TrainerSpec}.
Arguments EvSetTrainerSpecFromFlags {TrainerSpec}.
Arguments EvPopulateModelTypeFromString {TrainerSpec}.
Arguments EvTrain {TrainerSpec}.

(** The collaborators of the driver.  [TrainerSpec] is the trainer's
    protocol-buffer message; no claim looks into it. *)
Record Collaborators (TrainerFlags TrainerSpec : Type) : Type :=
  mkCollaborators {
  (** lines 215-262: the [Set...TrainerSpecFrom...] macros, which fill
      [trainer_spec] from the flags; the status is that of the [CHECK_OK]
      inside [load_lines] *)
  SetTrainerSpecFromFlags : Flags TrainerFlags -> Status * TrainerSpec;
  (** [SentencePieceTrainer::PopulateModelTypeFromString] *)
  PopulateModelTypeFromString : string -> TrainerSpec -> Status * TrainerSpec;
  (** [SentencePieceTrainer::Train] *)
  Train : TrainerSpec -> NormalizerSpec -> NormalizerSpec -> Status
}.
Arguments SetTrainerSpecFromFlags {TrainerFlags TrainerSpec}.
Arguments PopulateModelTypeFromString {TrainerFlags TrainerSpec}.
Arguments Train {TrainerFlags TrainerSpec}.

(** [static_cast<uint32>(v)]. *)
Definition to_uint32 (v : Z) : Z := v mod 2 ^ 32.

Section Driver.

Context {TrainerFlags TrainerSpec : Type}.
Variable env : Collaborators TrainerFlags TrainerSpec.
Variable flags : Flags TrainerFlags.

(** Lines 264-267. *)
Definition main_normalizer_spec : NormalizerSpec :=
  let normalizer_spec := NormalizerSpec_new in
  let normalizer_spec :=
    set_name (FLAGS_normalization_rule_name flags) normalizer_spec in
  let normalizer_spec :=
    set_normalization_rule_tsv (FLAGS_normalization_rule_tsv flags)
      normalizer_spec in
  let normalizer_spec :=
    set_add_dummy_prefix (FLAGS_add_dummy_prefix flags) normalizer_spec in
  set_remove_extra_whitespaces (FLAGS_remove_extra_whitespaces flags)
    normalizer_spec.

(** Lines 269-275. *)
Definition main_denormalizer_spec : NormalizerSpec :=
  let denormalizer_spec := NormalizerSpec_new in
  if negb (empty (FLAGS_denormalization_rule_tsv flags)) then
    let denormalizer_spec :=
      set_normalization_rule_tsv (FLAGS_denormalization_rule_tsv flags)
        denormalizer_spec in
    let denormalizer_spec := set_add_dummy_prefix false denormalizer_spec in
    let denormalizer_spec :=
      set_remove_extra_whitespaces false denormalizer_spec in
    set_escape_whitespaces false denormalizer_spec
  else denormalizer_spec.

(** [int main(int argc, char *argv[])], after [ParseCommandLineFlags]. *)
Definition main : Proc (Event TrainerSpec) Z :=
  CHECK "!sentencepiece::GetFlag(FLAGS_input).empty()"
    (negb (empty (FLAGS_input flags))) ;;
  CHECK "!sentencepiece::GetFlag(FLAGS_model_prefix).empty()"
    (negb (empty (FLAGS_model_prefix flags))) ;;
  (if negb (FLAGS_random_seed flags =? to_uint32 (-1))%Z
   then emit (EvSetRandomGeneratorSeed (FLAGS_random_seed flags))
   else ret tt) ;;
  emit EvSetTrainerSpecFromFlags ;;
  let (st, trainer_spec) := SetTrainerSpecFromFlags env flags in
  CHECK_OK st ;;
  let normalizer_spec := main_normalizer_spec in
  let denormalizer_spec := main_denormalizer_spec in
  emit (EvPopulateModelTypeFromString (FLAGS_model_type flags)) ;;
  let (st, trainer_spec) :=
    PopulateModelTypeFromString env (FLAGS_model_type flags) trainer_spec in
  CHECK_OK st ;;
  emit (EvTrain trainer_spec normalizer_spec denormalizer_spec) ;;
  CHECK_OK (Train env trainer_spec normalizer_spec denormalizer_spec) ;;
  ret 0%Z.

End Driver.

(** The denormalizer specs handed to [Train] in a trace. *)
Definition denormalizers_trained {TrainerSpec : Type}
    (t : list (Event TrainerSpec)) : list NormalizerSpec :=
  flat_map (fun e => match e with
                     | EvTrain _ _ d => [d]
                     | _ => []
                     end) t.

End spm_train.

(** ** A concrete world to run the drivers in *)

Module sample.

(** The spec stored in the model file [m.model]: trained with all three
    behaviour flags on. *)
Definition model_spec : NormalizerSpec :=
  {| name := Some "nmt_nfkc";
     precompiled_charsmap := Some "<nmt_nfkc blob>";
     add_dummy_prefix := Some true;
     remove_extra_whitespaces := Some true;
     escape_whitespaces := Some true;
     normalization_rule_tsv := None |}.

(** What [PopulateNormalizerSpec] does here: compile the named rule set or
    the TSV into the charsmap field and leave the rest alone. *)
Definition populate (s : NormalizerSpec) : NormalizerSpec :=
  mkNormalizerSpec (name s) (Some "<compiled blob>") (add_dummy_prefix s)
    (remove_extra_whitespaces s) (escape_whitespaces s)
    (normalization_rule_tsv s).

(** A stand-in normalizer that makes its flags visible in its output. *)
Definition normalize (n : Normalizer) (line : string) : string :=
  (if get true (add_dummy_prefix (spec_ n)) then "_" else "")
  ++ line
  ++ (if get true (remove_extra_whitespaces (spec_ n)) then "" else " ").

Definition world : spm_normalize.Collaborators :=
  {| spm_normalize.Processor_Load := fun filename =>
       if String.eqb filename "m.model"
       then (OkStatus, mkModelProto model_spec)
       else (ErrorStatus "No such file or directory",
             mkModelProto NormalizerSpec_new);
     spm_normalize.PopulateNormalizerSpec := fun s => (OkStatus, populate s);
     spm_normalize.DecompileCharsMap := fun blob =>
       if empty blob
       then (ErrorStatus "blob is empty", [])
       else (OkStatus, [([65%N], [97%N]); ([66%N], [])]);
     spm_normalize.SaveCharsMap := fun _ _ => OkStatus;
     spm_normalize.Normalize := normalize;
     spm_normalize.NewWritableFile := fun _ => OkStatus;
     spm_normalize.NewReadableFile := fun filename =>
       if String.eqb filename spm_normalize.stdin_filename
       then (OkStatus, ["typed on stdin"])
       else if String.eqb filename "a.txt"
       then (OkStatus, ["a one"; "a two"])
       else if String.eqb filename "b.txt"
       then (OkStatus, ["b one"])
       else (ErrorStatus "No such file or directory", []);
     spm_normalize.GetMinLogLevel := 0 |}.

(** [spm_normalize --model=m.model --normalization_rule_tsv=rules.tsv
    --normalization_rule_name=nfkc a.txt]: three rule sources at once. *)
Definition three_sources : spm_normalize.Flags :=
  {| spm_normalize.FLAGS_model := "m.model";
     spm_normalize.FLAGS_use_internal_normalization := false;
     spm_normalize.FLAGS_normalization_rule_name := "nfkc";
     spm_normalize.FLAGS_normalization_rule_tsv := "rules.tsv";
     spm_normalize.FLAGS_remove_extra_whitespaces := true;
     spm_normalize.FLAGS_decompile := false;
     spm_normalize.FLAGS_input := "";
     spm_normalize.FLAGS_output := "" |}.

(** [spm_normalize --normalization_rule_name=identity]: every other flag
    keeps its declared default. *)
Definition only_rule_name : spm_normalize.Flags :=
  {| spm_normalize.FLAGS_model := "";
     spm_normalize.FLAGS_use_internal_normalization := false;
     spm_normalize.FLAGS_normalization_rule_name := "identity";
     spm_normalize.FLAGS_normalization_rule_tsv := "";
     spm_normalize.FLAGS_remove_extra_whitespaces := true;
     spm_normalize.FLAGS_decompile := false;
     spm_normalize.FLAGS_input := "";
     spm_normalize.FLAGS_output := "" |}.

(** [spm_normalize --model=m.model --use_internal_normalization
    --input=a.txt]. *)
Definition as_trained : spm_normalize.Flags :=
  {| spm_normalize.FLAGS_model := "m.model";
     spm_normalize.FLAGS_use_internal_normalization := true;
     spm_normalize.FLAGS_normalization_rule_name := "";
     spm_normalize.FLAGS_normalization_rule_tsv := "";
     spm_normalize.FLAGS_remove_extra_whitespaces := true;
     spm_normalize.FLAGS_decompile := false;
     spm_normalize.FLAGS_input := "a.txt";
     spm_normalize.FLAGS_output := "out.txt" |}.

(** [spm_normalize --model=m.model --decompile --output=rules.tsv]. *)
Definition decompiling : spm_normalize.Flags :=
  {| spm_normalize.FLAGS_model := "m.model";
     spm_normalize.FLAGS_use_internal_normalization := false;
     spm_normalize.FLAGS_normalization_rule_name := "";
     spm_normalize.FLAGS_normalization_rule_tsv := "";
     spm_normalize.FLAGS_remove_extra_whitespaces := true;
     spm_normalize.FLAGS_decompile := true;
     spm_normalize.FLAGS_input := "a.txt";
     spm_normalize.FLAGS_output := "rules.tsv" |}.

(** [spm_normalize --normalization_rule_tsv=rules.tsv] with nothing else. *)
Definition only_rule_tsv : spm_normalize.Flags :=
  {| spm_normalize.FLAGS_model := "";
     spm_normalize.FLAGS_use_internal_normalization := false;
     spm_normalize.FLAGS_normalization_rule_name := "";
     spm_normalize.FLAGS_normalization_rule_tsv := "rules.tsv";
     spm_normalize.FLAGS_remove_extra_whitespaces := false;
     spm_normalize.FLAGS_decompile := false;
     spm_normalize.FLAGS_input := "";
     spm_normalize.FLAGS_output := "" |}.

(** A trainer whose spec is just the model type, and which always
    succeeds. *)
Definition trainer : spm_train.Collaborators unit string :=
  {| spm_train.SetTrainerSpecFromFlags := fun _ => (OkStatus, "");
     spm_train.PopulateModelTypeFromString := fun model_type _ =>
       (OkStatus, model_type);
     spm_train.Train := fun _ _ _ => OkStatus |}.

(** [spm_train --input=corpus.txt --model_prefix=m
    --denormalization_rule_tsv=denorm.tsv]. *)
Definition train_with_denormalizer : spm_train.Flags unit :=
  {| spm_train.FLAGS_input := "corpus.txt";
     spm_train.FLAGS_model_prefix := "m";
     spm_train.FLAGS_model_type := "unigram";
     spm_train.FLAGS_random_seed := 4294967295;
     spm_train.FLAGS_normalization_rule_name := "nmt_nfkc";
     spm_train.FLAGS_normalization_rule_tsv := "";
     spm_train.FLAGS_denormalization_rule_tsv := "denorm.tsv";
     spm_train.FLAGS_add_dummy_prefix := true;
     spm_train.FLAGS_remove_extra_whitespaces := true;
     spm_train.trainer_flags := tt |}.

(** The same command line without [--denormalization_rule_tsv]. *)
Definition train_without_denormalizer : spm_train.Flags unit :=
  {| spm_train.FLAGS_input := "corpus.txt";
     spm_train.FLAGS_model_prefix := "m";
     spm_train.FLAGS_model_type := "unigram";
     spm_train.FLAGS_random_seed := 4294967295;
     spm_train.FLAGS_normalization_rule_name := "nmt_nfkc";
     spm_train.FLAGS_normalization_rule_tsv := "";
     spm_train.FLAGS_denormalization_rule_tsv := "";
     spm_train.FLAGS_add_dummy_prefix := true;
     spm_train.FLAGS_remove_extra_whitespaces := true;
     spm_train.trainer_flags := tt |}.

End sample.

(** ** Further vocabulary for runs *)

(** The events that create or extend an output file. *)
Definition touches_output (e : Event) : bool :=
  match e with
  | EvSaveCharsMap _ _ | EvNewWritableFile _ | EvWriteLine _ => true
  | _ => false
  end.

(** A trace that leaves every output file alone. *)
Definition outputless (t : list Event) : Prop :=
  Forall (fun e => touches_output e = false) t.

(** The specs handed to [PopulateNormalizerSpec] in a trace. *)
Definition specs_populated (t : list Event) : list NormalizerSpec :=
  flat_map (fun e => match e with
                     | EvPopulateNormalizerSpec s => [s]
                     | _ => []
                     end) t.

(** The rule tables saved in a trace. *)
Definition tables_saved (t : list Event) : list (string * CharsMap) :=
  flat_map (fun e => match e with
                     | EvSaveCharsMap f m => [(f, m)]
                     | _ => []
                     end) t.

(** [flags] with another value for --remove_extra_whitespaces. *)
Definition with_remove_extra_whitespaces (v : bool)
    (flags : spm_normalize.Flags) : spm_normalize.Flags :=
  {| spm_normalize.FLAGS_model := spm_normalize.FLAGS_model flags;
     spm_normalize.FLAGS_use_internal_normalization :=
       spm_normalize.FLAGS_use_internal_normalization flags;
     spm_normalize.FLAGS_normalization_rule_name :=
       spm_normalize.FLAGS_normalization_rule_name flags;
     spm_normalize.FLAGS_normalization_rule_tsv :=
       spm_normalize.FLAGS_normalization_rule_tsv flags;
     spm_normalize.FLAGS_remove_extra_whitespaces := v;
     spm_normalize.FLAGS_decompile := spm_normalize.FLAGS_decompile flags;
     spm_normalize.FLAGS_input := spm_normalize.FLAGS_input flags;
     spm_normalize.FLAGS_output := spm_normalize.FLAGS_output flags |}.

(** The flags a decompiling run can depend on: the three rule sources and
    the output name. *)
Definition decompile_inputs (flags : spm_normalize.Flags)
  : string * string * string * string :=
  (spm_normalize.FLAGS_model flags,
   spm_normalize.FLAGS_normalization_rule_tsv flags,
   spm_normalize.FLAGS_normalization_rule_name flags,
   spm_normalize.FLAGS_output flags).

(** The parts of a spec the override of lines 81-86 does not write. *)
Definition rule_fields (s : NormalizerSpec)
  : option string * option string * option string :=
  (name s, precompiled_charsmap s, normalization_rule_tsv s).

(** The calls to [Train] in a trace of the training driver. *)
Definition trainings {TrainerSpec : Type}
    (t : list (spm_train.Event TrainerSpec))
  : list (TrainerSpec * NormalizerSpec * NormalizerSpec) :=
  flat_map (fun e => match e with
                     | spm_train.EvTrain ts n d => [(ts, n, d)]
                     | _ => []
                     end) t.

(** The seeds handed to [SetRandomGeneratorSeed] in a trace. *)
Definition seeds_set {TrainerSpec : Type}
    (t : list (spm_train.Event TrainerSpec)) : list Z :=
  flat_map (fun e => match e with
                     | spm_train.EvSetRandomGeneratorSeed seed => [seed]
                     | _ => []
                     end) t.

(** ** [spm_train_main.cc], lines 178-262: filling the trainer spec *)

Module spm_train_macros.

(** What a flag, or a scalar field of a message, holds.  [Real] is the type
    of the [double] and [float] values, which the driver only copies. *)
Inductive Value (Real : Type) : Type :=
| VBool (b : bool)
| VInt (z : Z)
| VReal (r : Real)
| VString (s : string).
Arguments VBool {Real}.
Arguments VInt {Real}.
Arguments VReal {Real}.
Arguments VString {Real}.

(** The text of a string flag. *)
Definition string_of {Real : Type} (v : Value Real) : string :=
  match v with
  | VString s => s
  | _ => ""
  end.

(** The [TrainerSpec] message, field by field name: [scalar name] is
    [Some v] once [set_<name>(v)] was called, and [repeated name] holds
    what [add_<name>] appended, in order. *)
Record TrainerSpec (Real : Type) : Type := mkTrainerSpec {
  scalar : string -> option (Value Real);
  repeated : string -> list string
}.
Arguments mkTrainerSpec {Real}.
Arguments scalar {Real}.
Arguments repeated {Real}.

Definition TrainerSpec_new {Real : Type} : TrainerSpec Real :=
  {| scalar := fun _ => None; repeated := fun _ => [] |}.

(** The field [name] now holds [v]: what [trainer_spec.set_<name>] does
    once its argument has the type of the field. *)
Definition set_ {Real : Type} (name : string) (v : Value Real)
    (trainer_spec : TrainerSpec Real) : TrainerSpec Real :=
  {| scalar := fun n =>
       if String.eqb n name then Some v else scalar trainer_spec n;
     repeated := repeated trainer_spec |}.

(** [trainer_spec.add_<name>(v)]. *)
Definition add_ {Real : Type} (name : string) (v : string)
    (trainer_spec : TrainerSpec Real) : TrainerSpec Real :=
  {| scalar := scalar trainer_spec;
     repeated := fun n =>
       if String.eqb n name
       then repeated trainer_spec n ++ [v]
       else repeated trainer_spec n |}.

(** [for (const auto &v : vs) trainer_spec.add_<name>(v);] *)
Definition add_each {Real : Type} (name : string) (vs : list string)
    (trainer_spec : TrainerSpec Real) : TrainerSpec Real :=
  fold_left (fun trainer_spec v => add_ name v trainer_spec) vs trainer_spec.

Section Macros.

Context {Real : Type}.

(** [GetFlag(FLAGS_<name>)], by flag name. *)
Variable GetFlag : string -> Value Real.
(** [util::StrSplitAsCSV]. *)
Variable StrSplitAsCSV : string -> list string.
(** [filesystem::NewReadableFile(filename)]: its [status()] and the lines
    successive [ReadLine] calls yield before returning false. *)
Variable NewReadableFile : string -> Status * list string.
(** The conversion a call [trainer_spec.set_<name>(v)] makes of [v] to the
    type of the field [name].  The schema that declares the fields is not
    among the sources.  Where the field is narrower than the flag, as the
    [float] fields character_coverage and shrinking_factor are for their
    [double] flags, the value stored is the rounded one. *)
Variable as_field : string -> Value Real -> Value Real.

(** Lines 183-184: [while (input->ReadLine(&line))
    lines.emplace_back(line);] *)
Fixpoint load_lines_loop (stream lines : list string)
  : Proc Event (list string) :=
  match stream with
  | [] => ret lines
  | line :: stream' =>
      emit (EvReadLine line) ;;
      load_lines_loop stream' (lines ++ [line])
  end.

(** Lines 178-186: the lambda [load_lines]. *)
Definition load_lines (filename : string) : Proc Event (list string) :=
  let lines := [] in
  emit (EvNewReadableFile filename) ;;
  let (st, stream) := NewReadableFile filename in
  CHECK_OK st ;;
  load_lines_loop stream lines.

(** Lines 189-190. *)
Definition SetTrainerSpecFromFlag (name : string)
    (trainer_spec : TrainerSpec Real) : TrainerSpec Real :=
  set_ name (as_field name (GetFlag name)) trainer_spec.

(** Lines 195-199; [absl::StrJoin(lines, "")] is [String.concat ""]. *)
Definition SetTrainerSpecFromFile (name : string)
    (trainer_spec : TrainerSpec Real) : Proc Event (TrainerSpec Real) :=
  if negb (empty (string_of (GetFlag (name ++ "_file")))) then
    lines <- load_lines (string_of (GetFlag (name ++ "_file"))) ;;
    ret (set_ name (as_field name (VString (String.concat "" lines)))
           trainer_spec)
  else ret trainer_spec.

(** Lines 200-206. *)
Definition SetRepeatedTrainerSpecFromFlag (name : string)
    (trainer_spec : TrainerSpec Real) : TrainerSpec Real :=
  if negb (empty (string_of (GetFlag name))) then
    add_each name (StrSplitAsCSV (string_of (GetFlag name))) trainer_spec
  else trainer_spec.

(** Lines 208-213. *)
Definition SetRepeatedTrainerSpecFromFile (name : string)
    (trainer_spec : TrainerSpec Real) : Proc Event (TrainerSpec Real) :=
  if negb (empty (string_of (GetFlag (name ++ "_file")))) then
    lines <- load_lines (string_of (GetFlag (name ++ "_file"))) ;;
    ret (add_each name lines trainer_spec)
  else ret trainer_spec.

(** A run of consecutive [SetTrainerSpecFromFlag] lines. *)
Definition SetTrainerSpecFromFlags (names : list string)
    (trainer_spec : TrainerSpec Real) : TrainerSpec Real :=
  fold_left (fun trainer_spec name => SetTrainerSpecFromFlag name trainer_spec)
    names trainer_spec.

(** The names on lines 217-249 and on lines 255-259, in order. *)
Definition lines_217_249 : list string :=
  ["input_format"; "model_prefix"; "vocab_size"; "self_test_sample_size";
   "character_coverage"; "input_sentence_size"; "shuffle_input_sentence";
   "seed_sentencepiece_size"; "shrinking_factor"; "num_threads";
   "num_sub_iterations"; "max_sentencepiece_length"; "max_sentence_length";
   "split_by_unicode_script"; "split_by_whitespace"; "split_by_number";
   "split_digits"; "pretokenization_delimiter"; "byte_fallback";
   "treat_whitespace_as_suffix"; "allow_whitespace_only_pieces";
   "hard_vocab_limit"; "use_all_vocab"; "unk_id"; "bos_id"; "eos_id";
   "pad_id"; "unk_piece"; "bos_piece"; "eos_piece"; "pad_piece";
   "unk_surface"; "required_chars"].

Definition lines_255_259 : list string :=
  ["train_extremely_large_corpus"; "enable_differential_privacy";
   "differential_privacy_noise_level";
   "differential_privacy_clipping_threshold"].

(** Lines 215-262 of [main]: the trainer spec, filled from the flags and
    from the files the [_file] flags name. *)
Definition main_trainer_spec : Proc Event (TrainerSpec Real) :=
  let trainer_spec := TrainerSpec_new in
  let trainer_spec := SetRepeatedTrainerSpecFromFlag "input" trainer_spec in
  let trainer_spec := SetTrainerSpecFromFlags lines_217_249 trainer_spec in
  trainer_spec <- SetTrainerSpecFromFile "required_chars" trainer_spec ;;
  let trainer_spec :=
    SetTrainerSpecFromFlag "vocabulary_output_piece_score" trainer_spec in
  let trainer_spec :=
    SetRepeatedTrainerSpecFromFlag "accept_language" trainer_spec in
  let trainer_spec :=
    SetRepeatedTrainerSpecFromFlag "control_symbols" trainer_spec in
  let trainer_spec :=
    SetRepeatedTrainerSpecFromFlag "user_defined_symbols" trainer_spec in
  let trainer_spec := SetTrainerSpecFromFlags lines_255_259 trainer_spec in
  trainer_spec <-
    SetRepeatedTrainerSpecFromFile "control_symbols" trainer_spec ;;
  SetRepeatedTrainerSpecFromFile "user_defined_symbols" trainer_spec.

(** What a repeated flag contributes: nothing when it is empty. *)
Definition flag_items (name : string) : list string :=
  if empty (string_of (GetFlag name)) then []
  else StrSplitAsCSV (string_of (GetFlag name)).

(** What a [_file] flag contributes: nothing when it is empty. *)
Definition file_items (name : string) : list string :=
  if empty (string_of (GetFlag (name ++ "_file"))) then []
  else snd (NewReadableFile (string_of (GetFlag (name ++ "_file")))).

(** The file a [_file] flag names opens, or the flag is empty. *)
Definition file_usable (name : string) : bool :=
  empty (string_of (GetFlag (name ++ "_file")))
  || ok (fst (NewReadableFile (string_of (GetFlag (name ++ "_file"))))).

End Macros.

End spm_train_macros.

(** The events of spec resolution: loading a model or populating a spec. *)
Definition resolves (e : Event) : bool :=
  match e with
  | EvLoad _ | EvPopulateNormalizerSpec _ => true
  | _ => false
  end.

(** ** More command lines and worlds to run the drivers in *)

Module scenario.

(** [spm_normalize --model=missing.model --normalization_rule_tsv=rules.tsv
    --normalization_rule_name=nfkc]: the model does not exist. *)
Definition missing_model : spm_normalize.Flags :=
  {| spm_normalize.FLAGS_model := "missing.model";
     spm_normalize.FLAGS_use_internal_normalization := false;
     spm_normalize.FLAGS_normalization_rule_name := "nfkc";
     spm_normalize.FLAGS_normalization_rule_tsv := "rules.tsv";
     spm_normalize.FLAGS_remove_extra_whitespaces := true;
     spm_normalize.FLAGS_decompile := false;
     spm_normalize.FLAGS_input := "";
     spm_normalize.FLAGS_output := "" |}.

(** [spm_normalize --normalization_rule_name=identity --decompile
    --output=rules.tsv]. *)
Definition decompile_by_name : spm_normalize.Flags :=
  {| spm_normalize.FLAGS_model := "";
     spm_normalize.FLAGS_use_internal_normalization := false;
     spm_normalize.FLAGS_normalization_rule_name := "identity";
     spm_normalize.FLAGS_normalization_rule_tsv := "";
     spm_normalize.FLAGS_remove_extra_whitespaces := true;
     spm_normalize.FLAGS_decompile := true;
     spm_normalize.FLAGS_input := "";
     spm_normalize.FLAGS_output := "rules.tsv" |}.

(** The same with [--use_internal_normalization
    --remove_extra_whitespaces=false --input=a.txt] added. *)
Definition decompile_by_name_as_is : spm_normalize.Flags :=
  {| spm_normalize.FLAGS_model := "";
     spm_normalize.FLAGS_use_internal_normalization := true;
     spm_normalize.FLAGS_normalization_rule_name := "identity";
     spm_normalize.FLAGS_normalization_rule_tsv := "";
     spm_normalize.FLAGS_remove_extra_whitespaces := false;
     spm_normalize.FLAGS_decompile := true;
     spm_normalize.FLAGS_input := "a.txt";
     spm_normalize.FLAGS_output := "rules.tsv" |}.

(** The sample world with an output that cannot be created. *)
Definition read_only_world : spm_normalize.Collaborators :=
  {| spm_normalize.Processor_Load :=
       spm_normalize.Processor_Load sample.world;
     spm_normalize.PopulateNormalizerSpec :=
       spm_normalize.PopulateNormalizerSpec sample.world;
     spm_normalize.DecompileCharsMap :=
       spm_normalize.DecompileCharsMap sample.world;
     spm_normalize.SaveCharsMap := spm_normalize.SaveCharsMap sample.world;
     spm_normalize.Normalize := spm_normalize.Normalize sample.world;
     spm_normalize.NewWritableFile := fun _ =>
       ErrorStatus "Permission denied";
     spm_normalize.NewReadableFile :=
       spm_normalize.NewReadableFile sample.world;
     spm_normalize.GetMinLogLevel :=
       spm_normalize.GetMinLogLevel sample.world |}.

(** The sample world with a [PopulateNormalizerSpec] that compiles
    nothing: the charsmap stays unset. *)
Definition uncompiled_world : spm_normalize.Collaborators :=
  {| spm_normalize.Processor_Load :=
       spm_normalize.Processor_Load sample.world;
     spm_normalize.PopulateNormalizerSpec := fun s => (OkStatus, s);
     spm_normalize.DecompileCharsMap :=
       spm_normalize.DecompileCharsMap sample.world;
     spm_normalize.SaveCharsMap := spm_normalize.SaveCharsMap sample.world;
     spm_normalize.Normalize := spm_normalize.Normalize sample.world;
     spm_normalize.NewWritableFile :=
       spm_normalize.NewWritableFile sample.world;
     spm_normalize.NewReadableFile :=
       spm_normalize.NewReadableFile sample.world;
     spm_normalize.GetMinLogLevel :=
       spm_normalize.GetMinLogLevel sample.world |}.

(** The sample world under [--minloglevel=4]: above every severity. *)
Definition silent_world : spm_normalize.Collaborators :=
  {| spm_normalize.Processor_Load :=
       spm_normalize.Processor_Load sample.world;
     spm_normalize.PopulateNormalizerSpec :=
       spm_normalize.PopulateNormalizerSpec sample.world;
     spm_normalize.DecompileCharsMap :=
       spm_normalize.DecompileCharsMap sample.world;
     spm_normalize.SaveCharsMap := spm_normalize.SaveCharsMap sample.world;
     spm_normalize.Normalize := spm_normalize.Normalize sample.world;
     spm_normalize.NewWritableFile :=
       spm_normalize.NewWritableFile sample.world;
     spm_normalize.NewReadableFile :=
       spm_normalize.NewReadableFile sample.world;
     spm_normalize.GetMinLogLevel := 4 |}.

(** [spm_normalize --normalization_rule_tsv=rules.tsv
    --normalization_rule_name=nfkc b.txt]: a rule TSV and a rule name. *)
Definition tsv_and_name : spm_normalize.Flags :=
  {| spm_normalize.FLAGS_model := "";
     spm_normalize.FLAGS_use_internal_normalization := false;
     spm_normalize.FLAGS_normalization_rule_name := "nfkc";
     spm_normalize.FLAGS_normalization_rule_tsv := "rules.tsv";
     spm_normalize.FLAGS_remove_extra_whitespaces := true;
     spm_normalize.FLAGS_decompile := false;
     spm_normalize.FLAGS_input := "";
     spm_normalize.FLAGS_output := "" |}.

(** [spm_train --input=corpus.txt --model_prefix=m --random_seed=42]. *)
Definition train_seeded : spm_train.Flags unit :=
  {| spm_train.FLAGS_input := "corpus.txt";
     spm_train.FLAGS_model_prefix := "m";
     spm_train.FLAGS_model_type := "bpe";
     spm_train.FLAGS_random_seed := 42;
     spm_train.FLAGS_normalization_rule_name := "nmt_nfkc";
     spm_train.FLAGS_normalization_rule_tsv := "";
     spm_train.FLAGS_denormalization_rule_tsv := "";
     spm_train.FLAGS_add_dummy_prefix := true;
     spm_train.FLAGS_remove_extra_whitespaces := false;
     spm_train.trainer_flags := tt |}.

(** [spm_train --model_prefix=m --random_seed=42]: no --input. *)
Definition train_without_input : spm_train.Flags unit :=
  {| spm_train.FLAGS_input := "";
     spm_train.FLAGS_model_prefix := "m";
     spm_train.FLAGS_model_type := "bpe";
     spm_train.FLAGS_random_seed := 42;
     spm_train.FLAGS_normalization_rule_name := "nmt_nfkc";
     spm_train.FLAGS_normalization_rule_tsv := "";
     spm_train.FLAGS_denormalization_rule_tsv := "";
     spm_train.FLAGS_add_dummy_prefix := true;
     spm_train.FLAGS_remove_extra_whitespaces := true;
     spm_train.trainer_flags := tt |}.

(** The values of the training flags for [spm_train --input=a.txt,b.txt
    --required_chars=xyz --required_chars_file=chars.txt
    --control_symbols=<a>,<b> --control_symbols_file=ctrl.txt
    --user_defined_symbols_file=nowhere.txt]; a flag that is not
    mentioned reads as the empty string here. *)
Definition train_flags (name : string) : spm_train_macros.Value unit :=
  spm_train_macros.VString
    (if String.eqb name "input" then "a.txt,b.txt"
     else if String.eqb name "required_chars" then "xyz"
     else if String.eqb name "required_chars_file" then "chars.txt"
     else if String.eqb name "control_symbols" then "<a>,<b>"
     else if String.eqb name "control_symbols_file" then "ctrl.txt"
     else if String.eqb name "user_defined_symbols_file" then "nowhere.txt"
     else "").

(** The same without [--user_defined_symbols_file]. *)
Definition train_flags_ok (name : string) : spm_train_macros.Value unit :=
  if String.eqb name "user_defined_symbols_file"
  then spm_train_macros.VString ""
  else train_flags name.

(** A splitter that knows the two lists above. *)
Definition split_csv (s : string) : list string :=
  if String.eqb s "a.txt,b.txt" then ["a.txt"; "b.txt"]
  else if String.eqb s "<a>,<b>" then ["<a>"; "<b>"]
  else [s].

(** Setters that store what they are given. *)
Definition stored_as_given (name : string)
    (v : spm_train_macros.Value unit) : spm_train_macros.Value unit := v.



Definition files (filename : string) : Status * list string :=
  if String.eqb filename "chars.txt" then (OkStatus, ["ab"; "c"])
  else if String.eqb filename "ctrl.txt" then (OkStatus, ["<c>"; "<d>"])
  else (ErrorStatus "No such file or directory", []).

End scenario.

(** ** Sanity runs *)

Example run_three_sources :
  spm_normalize.main sample.world sample.three_sources
    ["spm_normalize"; "a.txt"]
  = ([EvLoad "m.model";
      EvNormalizer
        {| name := Some "nmt_nfkc";
           precompiled_charsmap := Some "<nmt_nfkc blob>";
           add_dummy_prefix := Some false;
           remove_extra_whitespaces := Some true;
           escape_whitespaces := Some false;
           normalization_rule_tsv := None |};
      EvNewWritableFile "";
      EvNewReadableFile "a.txt";
      EvReadLine "a one"; EvNormalize "a one"; EvWriteLine "a one";
      EvReadLine "a two"; EvNormalize "a two"; EvWriteLine "a two"],
     Done 0%Z).
Proof. reflexivity. Qed.

Example run_decompiling :
  spm_normalize.main sample.world sample.decompiling ["spm_normalize"]
  = ([EvLoad "m.model";
      EvDecompileCharsMap "<nmt_nfkc blob>";
      EvSaveCharsMap "rules.tsv" [([65%N], [97%N]); ([66%N], [])]],
     Done 0%Z).
Proof. reflexivity. Qed.

Example run_missing_file :
  spm_normalize.main sample.world sample.only_rule_tsv
    ["spm_normalize"; "b.txt"; "nowhere.txt"; "a.txt"]
  = ([EvPopulateNormalizerSpec
        (set_normalization_rule_tsv "rules.tsv" NormalizerSpec_new);
      EvNormalizer
        {| name := None;
           precompiled_charsmap := Some "<compiled blob>";
           add_dummy_prefix := Some false;
           remove_extra_whitespaces := Some false;
           escape_whitespaces := Some false;
           normalization_rule_tsv := Some "rules.tsv" |};
      EvNewWritableFile "";
      EvNewReadableFile "b.txt";
      EvReadLine "b one"; EvNormalize "b one"; EvWriteLine "b one ";
      EvNewReadableFile "nowhere.txt"],
     Died (CheckOkFailed (ErrorStatus "No such file or directory"))).
Proof. reflexivity. Qed.

Example run_train :
  spm_train.main sample.trainer sample.train_with_denormalizer
  = ([spm_train.EvSetTrainerSpecFromFlags;
      spm_train.EvPopulateModelTypeFromString "unigram";
      spm_train.EvTrain "unigram"
        {| name := Some "nmt_nfkc";
           precompiled_charsmap := None;
           add_dummy_prefix := Some true;
           remove_extra_whitespaces := Some true;
           escape_whitespaces := None;
           normalization_rule_tsv := Some "" |}
        {| name := None;
           precompiled_charsmap := None;
           add_dummy_prefix := Some false;
           remove_extra_whitespaces := Some false;
           escape_whitespaces := Some false;
           normalization_rule_tsv := Some "denorm.tsv" |}],
     Done 0%Z).
Proof. reflexivity. Qed.

(** ** The run monad *)

Section ProcFacts.

Context {E A B C : Type}.

Lemma bind_ret_l (a : A) (k : A -> Proc E B) : bind (ret a) k = k a.
Proof. unfold bind, ret. destruct (k a). reflexivity. Qed.

Lemma bind_ret_r (m : Proc E A) : bind m ret = m.
Proof.
  destruct m as [t [a | why]]; simpl; [rewrite app_nil_r |]; reflexivity.
Qed.

Lemma bind_assoc (m : Proc E A) (k : A -> Proc E B) (h : B -> Proc E C) :
  bind (bind m k) h = bind m (fun a => bind (k a) h).
Proof.
  destruct m as [t [a | why]]; simpl; [| reflexivity].
  destruct (k a) as [t' [b | why]]; simpl; [| reflexivity].
  destruct (h b) as [t'' r]. rewrite app_assoc. reflexivity.
Qed.

Lemma trace_bind (m : Proc E A) (k : A -> Proc E B) :
  trace (bind m k)
  = match result m with
    | Done a => trace m ++ trace (k a)
    | Died _ => trace m
    end.
Proof.
  destruct m as [t [a | why]]; simpl; [| reflexivity].
  destruct (k a). reflexivity.
Qed.

Lemma result_bind (m : Proc E A) (k : A -> Proc E B) :
  result (bind m k)
  = match result m with
    | Done a => result (k a)
    | Died why => Died why
    end.
Proof.
  destruct m as [t [a | why]]; simpl; [| reflexivity].
  destruct (k a). reflexivity.
Qed.

Lemma bind_Done (m : Proc E A) (k : A -> Proc E B) (a : A) :
  result m = Done a ->
  bind m k = (trace m ++ trace (k a), result (k a)).
Proof.
  destruct m as [t r]. simpl. intros ->. simpl.
  destruct (k a). reflexivity.
Qed.

Lemma bind_Died (m : Proc E A) (k : A -> Proc E B) (why : Abort) :
  result m = Died why -> bind m k = (trace m, Died why).
Proof. destruct m as [t r]. simpl. intros ->. reflexivity. Qed.

End ProcFacts.

(** ** Projections of traces *)

Lemma lines_read_app (t u : list Event) :
  lines_read (t ++ u) = lines_read t ++ lines_read u.
Proof. apply flat_map_app. Qed.

Lemma lines_written_app (t u : list Event) :
  lines_written (t ++ u) = lines_written t ++ lines_written u.
Proof. apply flat_map_app. Qed.

Lemma files_opened_app (t u : list Event) :
  files_opened (t ++ u) = files_opened t ++ files_opened u.
Proof. apply flat_map_app. Qed.

Lemma engines_built_app (t u : list Event) :
  engines_built (t ++ u) = engines_built t ++ engines_built u.
Proof. apply flat_map_app. Qed.

Lemma line_io_app (t u : list Event) :
  line_io (t ++ u) = line_io t ++ line_io u.
Proof. apply filter_app. Qed.

Lemma textless_app (t u : list Event) :
  textless t -> textless u -> textless (t ++ u).
Proof. intros Ht Hu. apply Forall_app. split; assumption. Qed.

(** A trace through which no text passes projects to nothing. *)
Lemma textless_projections (t : list Event) :
  textless t ->
  lines_read t = [] /\ lines_written t = [] /\ files_opened t = []
  /\ engines_built t = [] /\ line_io t = [].
Proof.
  induction 1 as [| e t He _ IH]; [repeat split |].
  destruct IH as (IHr & IHw & IHf & IHe & IHio).
  unfold lines_read, lines_written, files_opened, engines_built, line_io in *.
  destruct e; try discriminate He; simpl;
    rewrite ?IHr, ?IHw, ?IHf, ?IHe, ?IHio; repeat split.
Qed.

Create Rewrite HintDb projections.
#[local] Hint Rewrite lines_read_app lines_written_app files_opened_app
  engines_built_app line_io_app app_nil_r : projections.

(** ** The normalize driver, step by step *)

Section NormalizeFacts.

Import spm_normalize.

Variable env : Collaborators.
Variable flags : Flags.

Lemma main_load_spec_textless : textless (trace (main_load_spec env flags)).
Proof.
  unfold main_load_spec.
  destruct (empty (FLAGS_model flags)); simpl.
  - destruct (empty (FLAGS_normalization_rule_tsv flags)); simpl.
    + destruct (empty (FLAGS_normalization_rule_name flags)); simpl.
      * unfold LOG. destruct (GetMinLogLevel env >? LOG_FATAL)%Z;
          constructor.
      * destruct (PopulateNormalizerSpec env _) as [[| msg] s]; simpl;
          repeat constructor.
    + destruct (PopulateNormalizerSpec env _) as [[| msg] s]; simpl;
        repeat constructor.
  - destruct (Processor_Load env _) as [[| msg] mp]; simpl;
      repeat constructor.
Qed.

Lemma main_spec_trace :
  trace (main_spec env flags) = trace (main_load_spec env flags).
Proof.
  unfold main_spec. rewrite trace_bind.
  destruct (result (main_load_spec env flags)); simpl;
    [apply app_nil_r | reflexivity].
Qed.

Lemma main_spec_result :
  result (main_spec env flags)
  = match result (main_load_spec env flags) with
    | Done spec => Done (main_override_flags flags spec)
    | Died why => Died why
    end.
Proof. unfold main_spec. rewrite result_bind. reflexivity. Qed.

Lemma main_spec_textless : textless (trace (main_spec env flags)).
Proof. rewrite main_spec_trace. apply main_load_spec_textless. Qed.

(** The [while] loop never aborts and leaves three events per line. *)
Lemma main_read_lines_eq (normalizer : Normalizer) (lines : list string) :
  main_read_lines env normalizer lines
  = (flat_map (line_events env normalizer) lines, Done tt).
Proof.
  induction lines as [| line lines IH]; [reflexivity |].
  simpl. rewrite IH. reflexivity.
Qed.

Lemma line_events_projections (normalizer : Normalizer)
    (lines : list string) :
  let t := flat_map (line_events env normalizer) lines in
  lines_read t = lines
  /\ lines_written t = map (Normalize env normalizer) lines
  /\ files_opened t = []
  /\ engines_built t = []
  /\ line_io t
     = flat_map (fun l => [EvReadLine l;
                           EvWriteLine (Normalize env normalizer l)]) lines.
Proof.
  induction lines as [| line lines IH]; [repeat split |].
  destruct IH as (IHr & IHw & IHf & IHe & IHio).
  unfold lines_read, lines_written, files_opened, engines_built, line_io in *.
  simpl. rewrite IHr, IHw, IHf, IHe, IHio. repeat split.
Qed.

(** One turn of the [for] loop, unfolded. *)
Lemma main_read_files_cons (normalizer : Normalizer) (filename : string)
    (rest_args : list string) :
  main_read_files env normalizer (filename :: rest_args)
  = let (st, lines) := NewReadableFile env filename in
    if ok st
    then (EvNewReadableFile filename
            :: flat_map (line_events env normalizer) lines
            ++ trace (main_read_files env normalizer rest_args),
          result (main_read_files env normalizer rest_args))
    else ([EvNewReadableFile filename], Died (CheckOkFailed st)).
Proof.
  simpl. destruct (NewReadableFile env filename) as [st lines].
  unfold CHECK_OK. destruct (ok st); simpl; [| reflexivity].
  rewrite main_read_lines_eq. simpl.
  destruct (main_read_files env normalizer rest_args) as [t r].
  reflexivity.
Qed.

(** Whatever the loop does, reads and writes come in pairs, the files it
    opens are among those it was given, and it builds no engine. *)
Lemma main_read_files_any (normalizer : Normalizer)
    (rest_args : list string) :
  let t := trace (main_read_files env normalizer rest_args) in
  line_io t
  = flat_map (fun l => [EvReadLine l;
                        EvWriteLine (Normalize env normalizer l)])
      (lines_read t)
  /\ lines_written t = map (Normalize env normalizer) (lines_read t)
  /\ incl (files_opened t) rest_args
  /\ engines_built t = [].
Proof.
  induction rest_args as [| filename rest_args IH].
  - repeat split. apply incl_refl.
  - destruct IH as (IHio & IHw & IHf & IHe).
    rewrite main_read_files_cons.
    destruct (NewReadableFile env filename) as [st lines].
    destruct (ok st); cbv zeta.
    + destruct (line_events_projections normalizer lines)
        as (Lr & Lw & Lf & Le & Lio).
      change (trace (?a :: ?b ++ ?c, ?r)) with ([a] ++ b ++ c).
      autorewrite with projections.
      rewrite Lr, Lw, Lf, Le, Lio, IHio, IHw, IHe.
      simpl. rewrite flat_map_app, map_app. repeat split.
      apply incl_cons; [left; reflexivity |].
      apply incl_tl. exact IHf.
    + simpl. repeat split.
      apply incl_cons; [left; reflexivity | apply incl_nil_l].
Qed.

(** When every file opens, the loop completes and has read them all. *)
Lemma main_read_files_all_ok (normalizer : Normalizer)
    (rest_args : list string) :
  Forall (fun f => ok (fst (NewReadableFile env f)) = true) rest_args ->
  let m := main_read_files env normalizer rest_args in
  result m = Done tt
  /\ files_opened (trace m) = rest_args
  /\ lines_read (trace m)
     = flat_map (fun f => snd (NewReadableFile env f)) rest_args.
Proof.
  induction 1 as [| filename rest_args Hok _ IH]; [repeat split |].
  destruct IH as (IHr & IHf & IHl).
  cbv zeta. rewrite main_read_files_cons.
  destruct (NewReadableFile env filename) as [st lines] eqn:Hopen.
  simpl in Hok. rewrite Hok.
  destruct (line_events_projections normalizer lines)
    as (Lr & _ & Lf & _ & _).
  split; [exact IHr |].
  change (trace (?a :: ?b ++ ?c, ?r)) with ([a] ++ b ++ c).
  autorewrite with projections.
  rewrite Lr, Lf, IHf, IHl. simpl. rewrite Hopen. split; reflexivity.
Qed.

(** The three ways [main] goes on once the spec is settled. *)
Lemma main_without_spec (argv : list string) (why : Abort) :
  result (main_spec env flags) = Died why ->
  main env flags argv = (trace (main_spec env flags), Died why).
Proof.
  intros Hspec. unfold main. apply bind_Died. exact Hspec.
Qed.

Lemma main_decompiling (argv : list string) (spec : NormalizerSpec) :
  FLAGS_decompile flags = true ->
  result (main_spec env flags) = Done spec ->
  main env flags argv
  = let blob := precompiled_charsmap_bytes spec in
    let (st, chars_map) := DecompileCharsMap env blob in
    if ok st
    then (trace (main_spec env flags)
            ++ [EvDecompileCharsMap blob;
                EvSaveCharsMap (FLAGS_output flags) chars_map],
          let st' := SaveCharsMap env (FLAGS_output flags) chars_map in
          if ok st' then Done 0%Z else Died (CheckOkFailed st'))
    else (trace (main_spec env flags) ++ [EvDecompileCharsMap blob],
          Died (CheckOkFailed st)).
Proof.
  intros Hdec Hspec. unfold main. rewrite Hdec.
  destruct (main_spec env flags) as [t r]. simpl in Hspec. subst r.
  simpl. destruct (DecompileCharsMap env _) as [st chars_map].
  unfold CHECK_OK. destruct (ok st); simpl; [| reflexivity].
  destruct (ok (SaveCharsMap env _ _)); reflexivity.
Qed.

Lemma main_normalizing (argv : list string) (spec : NormalizerSpec) :
  FLAGS_decompile flags = false ->
  result (main_spec env flags) = Done spec ->
  main env flags argv
  = let st := NewWritableFile env (FLAGS_output flags) in
    let loop :=
      main_read_files env (mkNormalizer spec)
        (main_input_files (main_rest_args flags argv)) in
    if ok st
    then (trace (main_spec env flags)
            ++ EvNormalizer spec :: EvNewWritableFile (FLAGS_output flags)
            :: trace loop,
          match result loop with
          | Done _ => Done 0%Z
          | Died why => Died why
          end)
    else (trace (main_spec env flags)
            ++ [EvNormalizer spec; EvNewWritableFile (FLAGS_output flags)],
          Died (CheckOkFailed st)).
Proof.
  intros Hdec Hspec. unfold main. rewrite Hdec.
  destruct (main_spec env flags) as [t r]. simpl in Hspec. subst r.
  simpl. unfold CHECK_OK.
  destruct (ok (NewWritableFile env _)); simpl; [| reflexivity].
  destruct (main_read_files env _ _) as [t' [[] | why]]; simpl;
    [rewrite app_nil_r |]; reflexivity.
Qed.

(** [for (int i = 1; i < argc; ++i)] collects everything after the
    program name. *)
Lemma positional_arguments (argv : list string) :
  map (fun i => nth i argv "") (seq 1 (length argv - 1)) = tl argv.
Proof.
  destruct argv as [| program args]; [reflexivity |].
  simpl. rewrite Nat.sub_0_r, <- seq_shift, map_map.
  induction args as [| a args IH]; [reflexivity |].
  simpl. f_equal. rewrite <- seq_shift, map_map. exact IH.
Qed.

End NormalizeFacts.

(** ** Configuration resolution in the normalize driver *)

Section Resolution.

Import spm_normalize.


Lemma main_load_spec_model env flags :
  empty (FLAGS_model flags) = false ->
  main_load_spec env flags
  = ([EvLoad (FLAGS_model flags)],
     let (st, model_proto) := Processor_Load env (FLAGS_model flags) in
     if ok st then Done (normalizer_spec model_proto)
     else Died (CheckOkFailed st)).
Proof.
  intros Hmodel. unfold main_load_spec. rewrite Hmodel. simpl.
  destruct (Processor_Load env _) as [[| msg] mp]; reflexivity.
Qed.

Lemma main_load_spec_tsv env flags :
  empty (FLAGS_model flags) = true ->
  empty (FLAGS_normalization_rule_tsv flags) = false ->
  main_load_spec env flags
  = let spec :=
      set_normalization_rule_tsv (FLAGS_normalization_rule_tsv flags)
        NormalizerSpec_new in
    ([EvPopulateNormalizerSpec spec],
     let (st, spec') := PopulateNormalizerSpec env spec in
     if ok st then Done spec' else Died (CheckOkFailed st)).
Proof.
  intros Hmodel Htsv. unfold main_load_spec. rewrite Hmodel, Htsv. simpl.
  destruct (PopulateNormalizerSpec env _) as [[| msg] s]; reflexivity.
Qed.

Lemma main_load_spec_name env flags :
  empty (FLAGS_model flags) = true ->
  empty (FLAGS_normalization_rule_tsv flags) = true ->
  empty (FLAGS_normalization_rule_name flags) = false ->
  main_load_spec env flags
  = let spec :=
      set_name (FLAGS_normalization_rule_name flags) NormalizerSpec_new in
    ([EvPopulateNormalizerSpec spec],
     let (st, spec') := PopulateNormalizerSpec env spec in
     if ok st then Done spec' else Died (CheckOkFailed st)).
Proof.
  intros Hmodel Htsv Hname. unfold main_load_spec.
  rewrite Hmodel, Htsv, Hname. simpl.
  destruct (PopulateNormalizerSpec env _) as [[| msg] s]; reflexivity.
Qed.

(** The override of lines 81-86 leaves the compiled charsmap alone. *)
Lemma main_override_flags_charsmap flags spec :
  precompiled_charsmap (main_override_flags flags spec)
  = precompiled_charsmap spec.
Proof.
  unfold main_override_flags.
  destruct (FLAGS_use_internal_normalization flags); reflexivity.
Qed.




(** Without a rule source, resolution is the [LOG(FATAL)] of line 76 and
    nothing else. *)
Lemma main_load_spec_without_source env flags :
  empty (FLAGS_model flags) = true ->
  empty (FLAGS_normalization_rule_tsv flags) = true ->
  empty (FLAGS_normalization_rule_name flags) = true ->
  main_load_spec env flags
  = if (GetMinLogLevel env >? LOG_FATAL)%Z
    then ([], Done NormalizerSpec_new)
    else ([],
          Died (FatalLog
            "Sets --model, normalization_rule_tsv, or normalization_rule_name flag.")).
Proof.
  intros Hmodel Htsv Hname. unfold main_load_spec, LOG.
  rewrite Hmodel, Htsv, Hname. simpl.
  destruct (GetMinLogLevel env >? LOG_FATAL)%Z; reflexivity.
Qed.

(** At a minimum log level that lets FATAL through, as the default 0 does,
    a run without a rule source ends in the fatal error before it calls
    any collaborator. *)
Lemma no_rule_source_is_fatal env flags argv :
  (GetMinLogLevel env <= LOG_FATAL)%Z ->
  empty (FLAGS_model flags) = true ->
  empty (FLAGS_normalization_rule_tsv flags) = true ->
  empty (FLAGS_normalization_rule_name flags) = true ->
  main env flags argv
  = ([],
     Died (FatalLog
       "Sets --model, normalization_rule_tsv, or normalization_rule_name flag.")).
Proof.
  intros Hlevel Hmodel Htsv Hname.
  unfold main, main_spec.
  rewrite (main_load_spec_without_source env flags Hmodel Htsv Hname).
  destruct (Z.gtb_spec (GetMinLogLevel env) LOG_FATAL) as [Habove |];
    [lia | reflexivity].
Qed.

(** C2: the driver is written to fail when no rule source is supplied
    (line 76), and at the default log level it does.  Under --minloglevel=4
    it does not: the fatal message and the abort are both suppressed, the
    run goes on with the default-constructed spec of line 61, builds an
    engine from it, normalizes standard input and returns 0. *)
Theorem no_rule_source_goes_unnoticed :
  sources_supplied default_flags = 0
  /\ main scenario.silent_world default_flags ["spm_normalize"]
     = ([EvNormalizer
           {| name := None;
              precompiled_charsmap := None;
              add_dummy_prefix := Some false;
              remove_extra_whitespaces := Some true;
              escape_whitespaces := Some false;
              normalization_rule_tsv := None |};
         EvNewWritableFile "";
         EvNewReadableFile "";
         EvReadLine "typed on stdin";
         EvNormalize "typed on stdin";
         EvWriteLine "typed on stdin"],
        Done 0%Z)
  /\ main sample.world default_flags ["spm_normalize"]
     = ([],
        Died (FatalLog
          "Sets --model, normalization_rule_tsv, or normalization_rule_name flag.")).
Proof.
  split; [reflexivity | split].
  - reflexivity.
  - apply (no_rule_source_is_fatal sample.world default_flags);
      solve [reflexivity | cbv; discriminate].
Qed.




End Resolution.

(** ** Which spec the engine gets *)

Section EngineSpec.

Import spm_normalize.

(** C5: in "as trained" mode with a model that loads, the spec [main] works
    with is the model's spec, field for field: the engine is constructed
    from exactly that spec, and in decompile mode it is that spec's
    charsmap that is decompiled. *)
Theorem as_trained_spec_untouched env flags argv model_proto :
  FLAGS_use_internal_normalization flags = true ->
  empty (FLAGS_model flags) = false ->
  Processor_Load env (FLAGS_model flags) = (OkStatus, model_proto) ->
  main_spec env flags
  = ([EvLoad (FLAGS_model flags)], Done (normalizer_spec model_proto))
  /\ (FLAGS_decompile flags = false ->
      engines_built (trace (main env flags argv))
      = [normalizer_spec model_proto])
  /\ (FLAGS_decompile flags = true ->
      exists t,
        trace (main env flags argv)
        = EvLoad (FLAGS_model flags)
          :: EvDecompileCharsMap
               (precompiled_charsmap_bytes (normalizer_spec model_proto))
          :: t).
Proof.
  intros Hmode Hmodel Hload.
  assert (Hspec : main_spec env flags
                  = ([EvLoad (FLAGS_model flags)],
                     Done (normalizer_spec model_proto))).
  { unfold main_spec, main_override_flags.
    rewrite (main_load_spec_model _ _ Hmodel), Hload, Hmode. reflexivity. }
  split; [exact Hspec | split]; intros Hdec.
  - rewrite (main_normalizing env flags argv (normalizer_spec model_proto)
               Hdec) by (rewrite Hspec; reflexivity).
    rewrite Hspec. cbv zeta.
    destruct (main_read_files_any env
                (mkNormalizer (normalizer_spec model_proto))
                (main_input_files (main_rest_args flags argv)))
      as (_ & _ & _ & Hnone).
    destruct (ok (NewWritableFile env (FLAGS_output flags))); simpl;
      [rewrite Hnone |]; reflexivity.
  - rewrite (main_decompiling env flags argv (normalizer_spec model_proto)
               Hdec) by (rewrite Hspec; reflexivity).
    rewrite Hspec. cbv zeta.
    destruct (DecompileCharsMap env _) as [st chars_map].
    destruct (ok st); simpl; eexists; reflexivity.
Qed.

Lemma as_trained_spec_untouched_witness :
  main_spec sample.world sample.as_trained
  = ([EvLoad "m.model"], Done sample.model_spec)
  /\ engines_built
       (trace (main sample.world sample.as_trained ["spm_normalize"]))
     = [sample.model_spec].
Proof.
  destruct (as_trained_spec_untouched sample.world sample.as_trained
              ["spm_normalize"] (mkModelProto sample.model_spec)
              eq_refl eq_refl eq_refl) as (Hspec & Hengine & _).
  split; [exact Hspec | exact (Hengine eq_refl)].
Defined.

End EngineSpec.

(** ** What a run of the normalize driver does *)

Section Runs.

Import spm_normalize.

(** C6: with the decompile flag set, no part of the run touches input
    text: no engine is built, no input file is opened, no line is read,
    normalized or written.  Once the spec is resolved, its compiled
    charsmap is what is decompiled, and the rule table that comes out is
    what is saved, as TSV, under the output name; the run then ends with the
    status of that save. *)
Theorem decompile_only_decompiles env flags argv :
  FLAGS_decompile flags = true ->
  textless (trace (main env flags argv))
  /\ forall spec chars_map,
       result (main_spec env flags) = Done spec ->
       DecompileCharsMap env (precompiled_charsmap_bytes spec)
       = (OkStatus, chars_map) ->
       trace (main env flags argv)
       = trace (main_spec env flags)
         ++ [EvDecompileCharsMap (precompiled_charsmap_bytes spec);
             EvSaveCharsMap (FLAGS_output flags) chars_map]
       /\ result (main env flags argv)
          = let st := SaveCharsMap env (FLAGS_output flags) chars_map in
            if ok st then Done 0%Z else Died (CheckOkFailed st).
Proof.
  intros Hdec. split.
  - pose proof (main_spec_textless env flags) as Hspec.
    destruct (result (main_spec env flags)) as [spec | why] eqn:Hres.
    + rewrite (main_decompiling env flags argv spec Hdec Hres). cbv zeta.
      destruct (DecompileCharsMap env _) as [st chars_map].
      destruct (ok st); simpl; apply textless_app; try exact Hspec;
        repeat constructor.
    + rewrite (main_without_spec env flags argv why Hres). exact Hspec.
  - intros spec chars_map Hres Hmap.
    rewrite (main_decompiling env flags argv spec Hdec Hres). cbv zeta.
    rewrite Hmap. split; reflexivity.
Qed.

Lemma decompile_only_decompiles_witness :
  textless (trace (main sample.world sample.decompiling
                     ["spm_normalize"; "b.txt"]))
  /\ trace (main sample.world sample.decompiling ["spm_normalize"; "b.txt"])
     = [EvLoad "m.model";
        EvDecompileCharsMap "<nmt_nfkc blob>";
        EvSaveCharsMap "rules.tsv" [([65%N], [97%N]); ([66%N], [])]]
  /\ result (main sample.world sample.decompiling
               ["spm_normalize"; "b.txt"])
     = Done 0%Z.
Proof.
  destruct (decompile_only_decompiles sample.world sample.decompiling
              ["spm_normalize"; "b.txt"] eq_refl) as [Hquiet Hrun].
  split; [exact Hquiet |].
  exact (Hrun (main_override_flags sample.decompiling sample.model_spec)
           [([65%N], [97%N]); ([66%N], [])] eq_refl eq_refl).
Defined.

(** C7: outside decompile mode, with the spec resolved, a single engine is
    built from that spec; every line read is followed by the write of its
    normalization by that engine before the next line is read, so the lines
    written are the normalizations of the lines read, one for one and in
    order, each depending on its own line only.  This holds of every run,
    also of one that aborts at a file that does not open.  When the output
    and all input files open, the run completes and the lines read are
    those of the input files in order. *)
Theorem one_output_line_per_input_line env flags argv spec :
  FLAGS_decompile flags = false ->
  result (main_spec env flags) = Done spec ->
  let t := trace (main env flags argv) in
  let normalize := Normalize env (mkNormalizer spec) in
  engines_built t = [spec]
  /\ line_io t
     = flat_map (fun l => [EvReadLine l; EvWriteLine (normalize l)])
         (lines_read t)
  /\ lines_written t = map normalize (lines_read t)
  /\ (ok (NewWritableFile env (FLAGS_output flags)) = true ->
      Forall (fun f => ok (fst (NewReadableFile env f)) = true)
        (main_input_files (main_rest_args flags argv)) ->
      result (main env flags argv) = Done 0%Z
      /\ lines_read t
         = flat_map (fun f => snd (NewReadableFile env f))
             (main_input_files (main_rest_args flags argv))).
Proof.
  intros Hdec Hres. cbv zeta.
  rewrite (main_normalizing env flags argv spec Hdec Hres). cbv zeta.
  destruct (textless_projections _ (main_spec_textless env flags))
    as (Sr & Sw & _ & Se & Sio).
  destruct (main_read_files_any env (mkNormalizer spec)
              (main_input_files (main_rest_args flags argv)))
    as (Lio & Lw & _ & Le).
  destruct (ok (NewWritableFile env (FLAGS_output flags))).
  - change (trace (?a ++ ?b :: ?c :: ?d, ?r)) with (a ++ [b; c] ++ d).
    autorewrite with projections.
    rewrite Sr, Sw, Se, Sio, Le. simpl.
    split; [reflexivity | split; [exact Lio | split; [exact Lw |]]].
    intros _ Hfiles.
    destruct (main_read_files_all_ok env (mkNormalizer spec) _ Hfiles)
      as (-> & _ & Hread).
    split; [reflexivity | exact Hread].
  - change (trace (?a ++ ?l, ?r)) with (a ++ l).
    autorewrite with projections.
    rewrite Sr, Sw, Se, Sio. simpl.
    repeat split; discriminate.
Qed.

Lemma one_output_line_per_input_line_witness :
  lines_read (trace (main sample.world sample.only_rule_tsv
                       ["spm_normalize"; "b.txt"; "a.txt"]))
  = ["b one"; "a one"; "a two"]
  /\ lines_written (trace (main sample.world sample.only_rule_tsv
                             ["spm_normalize"; "b.txt"; "a.txt"]))
     = ["b one "; "a one "; "a two "].
Proof.
  destruct (one_output_line_per_input_line sample.world sample.only_rule_tsv
              ["spm_normalize"; "b.txt"; "a.txt"]
              (main_override_flags sample.only_rule_tsv
                 (sample.populate
                    (set_normalization_rule_tsv "rules.tsv"
                       NormalizerSpec_new)))
              eq_refl eq_refl)
    as (_ & _ & Hwritten & Hall).
  destruct (Hall eq_refl) as [_ Hread].
  { repeat constructor. }
  split; [exact Hread |].
  rewrite Hwritten, Hread. reflexivity.
Defined.

End Runs.

(** ** Which input files a run reads *)

Section InputFiles.

Import spm_normalize.

Lemma main_input_files_cons (rest_args : list string) :
  exists filename rest, main_input_files rest_args = filename :: rest.
Proof.
  destruct rest_args as [| filename rest]; simpl; eauto.
Qed.

(** The loop always opens the first file it is given. *)
Lemma main_read_files_first env normalizer filename rest :
  exists more,
    files_opened (trace (main_read_files env normalizer (filename :: rest)))
    = filename :: more.
Proof.
  rewrite main_read_files_cons.
  destruct (NewReadableFile env filename) as [st lines].
  destruct (line_events_projections env normalizer lines)
    as (_ & _ & Lf & _ & _).
  destruct (ok st).
  - change (trace (?a :: ?b ++ ?c, ?r)) with ([a] ++ b ++ c).
    autorewrite with projections. rewrite Lf. simpl. eauto.
  - exists []. reflexivity.
Qed.

(** Given one file, the loop opens that file and no other. *)
Lemma main_read_files_single env normalizer filename :
  files_opened (trace (main_read_files env normalizer [filename]))
  = [filename].
Proof.
  rewrite main_read_files_cons.
  destruct (NewReadableFile env filename) as [st lines].
  destruct (line_events_projections env normalizer lines)
    as (_ & _ & Lf & _ & _).
  destruct (ok st); [| reflexivity].
  change (trace (?a :: ?b ++ ?c, ?r)) with ([a] ++ b ++ c).
  autorewrite with projections. rewrite Lf. reflexivity.
Qed.

(** No run opens an input file outside the list the loop runs over. *)
Lemma main_files_opened env flags argv :
  incl (files_opened (trace (main env flags argv)))
    (main_input_files (main_rest_args flags argv)).
Proof.
  destruct (textless_projections _ (main_spec_textless env flags))
    as (_ & _ & Sf & _ & _).
  destruct (result (main_spec env flags)) as [spec | why] eqn:Hres.
  - destruct (FLAGS_decompile flags) eqn:Hdec.
    + rewrite (main_decompiling env flags argv spec Hdec Hres). cbv zeta.
      destruct (DecompileCharsMap env _) as [st chars_map].
      destruct (ok st);
        change (trace (?a ++ ?l, ?r)) with (a ++ l);
        autorewrite with projections; rewrite Sf; apply incl_nil_l.
    + rewrite (main_normalizing env flags argv spec Hdec Hres). cbv zeta.
      destruct (main_read_files_any env (mkNormalizer spec)
                  (main_input_files (main_rest_args flags argv)))
        as (_ & _ & Hincl & _).
      destruct (ok (NewWritableFile env (FLAGS_output flags))).
      * change (trace (?a ++ ?b :: ?c :: ?d, ?r)) with (a ++ [b; c] ++ d).
        autorewrite with projections. rewrite Sf. exact Hincl.
      * change (trace (?a ++ ?l, ?r)) with (a ++ l).
        autorewrite with projections. rewrite Sf. apply incl_nil_l.
  - rewrite (main_without_spec env flags argv why Hres).
    change (trace (?a, ?r)) with a. rewrite Sf. apply incl_nil_l.
Qed.

(** Once the loop is reached, the files a run opens are those the loop
    opens. *)
Lemma main_files_opened_loop env flags argv spec :
  FLAGS_decompile flags = false ->
  result (main_spec env flags) = Done spec ->
  ok (NewWritableFile env (FLAGS_output flags)) = true ->
  let loop :=
    main_read_files env (mkNormalizer spec)
      (main_input_files (main_rest_args flags argv)) in
  files_opened (trace (main env flags argv)) = files_opened (trace loop)
  /\ lines_read (trace (main env flags argv)) = lines_read (trace loop)
  /\ result (main env flags argv)
     = match result loop with
       | Done _ => Done 0%Z
       | Died why => Died why
       end.
Proof.
  intros Hdec Hres Hout. cbv zeta.
  destruct (textless_projections _ (main_spec_textless env flags))
    as (Sr & _ & Sf & _ & _).
  rewrite (main_normalizing env flags argv spec Hdec Hres). cbv zeta.
  rewrite Hout.
  change (trace (?a ++ ?b :: ?c :: ?d, ?r)) with (a ++ [b; c] ++ d).
  autorewrite with projections. rewrite Sr, Sf. repeat split.
Qed.

(** C9: a run that reaches the loop always opens at least one input
    stream.  When --input is empty and no positional argument is left, the
    input list is the empty file name alone, the name that stands for
    standard input: that stream is the one the run opens, and when it opens
    the run completes having read exactly its lines. *)
Theorem reads_stdin_when_nothing_named env flags argv spec :
  FLAGS_decompile flags = false ->
  result (main_spec env flags) = Done spec ->
  ok (NewWritableFile env (FLAGS_output flags)) = true ->
  files_opened (trace (main env flags argv)) <> []
  /\ (empty (FLAGS_input flags) = true ->
      tl argv = [] ->
      main_input_files (main_rest_args flags argv) = [stdin_filename]
      /\ files_opened (trace (main env flags argv)) = [stdin_filename]
      /\ forall lines,
           NewReadableFile env stdin_filename = (OkStatus, lines) ->
           lines_read (trace (main env flags argv)) = lines
           /\ result (main env flags argv) = Done 0%Z).
Proof.
  intros Hdec Hres Hout.
  destruct (main_files_opened_loop env flags argv spec Hdec Hres Hout)
    as (Hfiles & Hlines & Hresult).
  rewrite Hfiles, Hlines, Hresult. split.
  - destruct (main_input_files_cons (main_rest_args flags argv))
      as (filename & rest & ->).
    destruct (main_read_files_first env (mkNormalizer spec) filename rest)
      as [more ->].
    discriminate.
  - intros Hinput Hnone.
    assert (Hargs : main_input_files (main_rest_args flags argv)
                    = [stdin_filename]).
    { unfold main_rest_args. rewrite Hinput, positional_arguments, Hnone.
      reflexivity. }
    rewrite Hargs.
    split; [reflexivity | split; [apply main_read_files_single |]].
    intros lines Hopen.
    destruct (main_read_files_all_ok env (mkNormalizer spec)
                [stdin_filename]) as (-> & _ & ->).
    + constructor; [rewrite Hopen; reflexivity | constructor].
    + simpl. rewrite Hopen, app_nil_r. split; reflexivity.
Qed.

Lemma reads_stdin_when_nothing_named_witness :
  files_opened (trace (main sample.world sample.only_rule_tsv
                         ["spm_normalize"]))
  = [stdin_filename]
  /\ lines_read (trace (main sample.world sample.only_rule_tsv
                          ["spm_normalize"]))
     = ["typed on stdin"].
Proof.
  destruct (reads_stdin_when_nothing_named sample.world sample.only_rule_tsv
              ["spm_normalize"]
              (main_override_flags sample.only_rule_tsv
                 (sample.populate
                    (set_normalization_rule_tsv "rules.tsv"
                       NormalizerSpec_new)))
              eq_refl eq_refl eq_refl) as [_ Hstdin].
  destruct (Hstdin eq_refl eq_refl) as (_ & Hopened & Hlines).
  split; [exact Hopened |].
  exact (proj1 (Hlines ["typed on stdin"] eq_refl)).
Defined.

End InputFiles.

(** ** The denormalizer spec of the training driver *)

Section Denormalizer.

Import spm_train.

Context {TrainerFlags TrainerSpec : Type}.
Variable env : Collaborators TrainerFlags TrainerSpec.
Variable flags : Flags TrainerFlags.

(** [Train] is called at most once, and then with the denormalizer spec of
    lines 269-275. *)
Lemma main_trains_at_most_once :
  denormalizers_trained (trace (main env flags)) = []
  \/ denormalizers_trained (trace (main env flags))
     = [main_denormalizer_spec flags].
Proof.
  unfold main, CHECK, CHECK_OK.
  destruct (empty (FLAGS_input flags)); [left; reflexivity |].
  destruct (empty (FLAGS_model_prefix flags)); [left; reflexivity |].
  destruct (SetTrainerSpecFromFlags env flags) as [[| msg] trainer_spec];
    destruct (FLAGS_random_seed flags =? to_uint32 (-1))%Z; simpl;
    try (left; reflexivity);
    destruct (PopulateModelTypeFromString env _ _) as [[| msg'] ts]; simpl;
    try (left; reflexivity);
    destruct (Train env _ _ _); right; reflexivity.
Qed.

(** When the checks before it pass, [Train] is called. *)
Lemma main_reaches_train trainer_spec trainer_spec' :
  empty (FLAGS_input flags) = false ->
  empty (FLAGS_model_prefix flags) = false ->
  SetTrainerSpecFromFlags env flags = (OkStatus, trainer_spec) ->
  PopulateModelTypeFromString env (FLAGS_model_type flags) trainer_spec
  = (OkStatus, trainer_spec') ->
  denormalizers_trained (trace (main env flags))
  = [main_denormalizer_spec flags]
  /\ result (main env flags)
     = let st :=
         Train env trainer_spec' (main_normalizer_spec flags)
           (main_denormalizer_spec flags) in
       if ok st then Done 0%Z else Died (CheckOkFailed st).
Proof.
  intros Hinput Hprefix Hspec Htype.
  unfold main, CHECK, CHECK_OK.
  rewrite Hinput, Hprefix, Hspec. simpl.
  destruct (FLAGS_random_seed flags =? to_uint32 (-1))%Z; simpl;
    rewrite Htype; simpl;
    destruct (ok (Train env _ _ _)); split; reflexivity.
Qed.

End Denormalizer.

(** C10: every denormalizer spec handed to [Train] has, when a
    denormalization rule TSV is supplied, that TSV as its rule TSV and
    add_dummy_prefix, remove_extra_whitespaces and escape_whitespaces all
    set to false, so that each reads as false whatever the schema default,
    and nothing else set; when no denormalization rule TSV is supplied it
    is the default-constructed message, with no field set.  And [Train] is
    handed one whenever the checks before it pass. *)
Theorem denormalizer_flags_all_off
    {TrainerFlags TrainerSpec : Type}
    (env : spm_train.Collaborators TrainerFlags TrainerSpec)
    (flags : spm_train.Flags TrainerFlags) :
  let trained :=
    spm_train.denormalizers_trained (trace (spm_train.main env flags)) in
  (forall d,
     In d trained ->
     (empty (spm_train.FLAGS_denormalization_rule_tsv flags) = false ->
      d = {| name := None;
             precompiled_charsmap := None;
             add_dummy_prefix := Some false;
             remove_extra_whitespaces := Some false;
             escape_whitespaces := Some false;
             normalization_rule_tsv :=
               Some (spm_train.FLAGS_denormalization_rule_tsv flags) |}
      /\ forall schema_default,
           get schema_default (add_dummy_prefix d) = false
           /\ get schema_default (remove_extra_whitespaces d) = false
           /\ get schema_default (escape_whitespaces d) = false)
     /\ (empty (spm_train.FLAGS_denormalization_rule_tsv flags) = true ->
         d = NormalizerSpec_new))
  /\ (forall trainer_spec trainer_spec',
        empty (spm_train.FLAGS_input flags) = false ->
        empty (spm_train.FLAGS_model_prefix flags) = false ->
        spm_train.SetTrainerSpecFromFlags env flags
        = (OkStatus, trainer_spec) ->
        spm_train.PopulateModelTypeFromString env
          (spm_train.FLAGS_model_type flags) trainer_spec
        = (OkStatus, trainer_spec') ->
        length trained = 1).
Proof.
  cbv zeta. split.
  - intros d Hd.
    assert (Heq : d = spm_train.main_denormalizer_spec flags).
    { destruct (main_trains_at_most_once env flags) as [Hnone | Hone].
      - rewrite Hnone in Hd. destruct Hd.
      - rewrite Hone in Hd. destruct Hd as [<- | []]. reflexivity. }
    subst d. unfold spm_train.main_denormalizer_spec.
    split; intros ->; simpl; repeat split.
  - intros trainer_spec trainer_spec' Hinput Hprefix Hspec Htype.
    destruct (main_reaches_train env flags trainer_spec trainer_spec'
                Hinput Hprefix Hspec Htype) as [-> _].
    reflexivity.
Qed.

Lemma denormalizer_flags_all_off_witness :
  In {| name := None;
        precompiled_charsmap := None;
        add_dummy_prefix := Some false;
        remove_extra_whitespaces := Some false;
        escape_whitespaces := Some false;
        normalization_rule_tsv := Some "denorm.tsv" |}
     (spm_train.denormalizers_trained
        (trace (spm_train.main sample.trainer
                  sample.train_with_denormalizer)))
  /\ length (spm_train.denormalizers_trained
               (trace (spm_train.main sample.trainer
                         sample.train_without_denormalizer))) = 1.
Proof.
  split.
  - destruct (denormalizer_flags_all_off sample.trainer
                sample.train_with_denormalizer) as [Hspec _].
    destruct (Hspec (spm_train.main_denormalizer_spec
                       sample.train_with_denormalizer)
                (or_introl eq_refl)) as [Hgiven _].
    destruct (Hgiven eq_refl) as [Hfields _].
    left. exact Hfields.
  - destruct (denormalizer_flags_all_off sample.trainer
                sample.train_without_denormalizer) as [_ Hreached].
    exact (Hreached "" "unigram" eq_refl eq_refl eq_refl eq_refl).
Defined.

(** ** Further properties of the normalize driver *)

Section NormalizeOutcomes.

Import spm_normalize.

Variable env : Collaborators.

Lemma main_load_spec_outputless flags :
  outputless (trace (main_load_spec env flags)).
Proof.
  unfold main_load_spec.
  destruct (empty (FLAGS_model flags)); simpl.
  - destruct (empty (FLAGS_normalization_rule_tsv flags)); simpl.
    + destruct (empty (FLAGS_normalization_rule_name flags)); simpl.
      * unfold LOG. destruct (GetMinLogLevel env >? LOG_FATAL)%Z;
          constructor.
      * destruct (PopulateNormalizerSpec env _) as [[| msg] s]; simpl;
          repeat constructor.
    + destruct (PopulateNormalizerSpec env _) as [[| msg] s]; simpl;
        repeat constructor.
  - destruct (Processor_Load env _) as [[| msg] mp]; simpl;
      repeat constructor.
Qed.

(** Resolution ends with the fatal message only when no source is supplied
    and the log level lets FATAL through; any other abort is the status of
    the loader that failed; and it ends well only with a source supplied or
    with the fatal message silenced. *)
Lemma main_load_spec_outcome flags :
  match result (main_load_spec env flags) with
  | Done _ =>
      0 < sources_supplied flags \/ (LOG_FATAL < GetMinLogLevel env)%Z
  | Died (FatalLog _) =>
      sources_supplied flags = 0 /\ (GetMinLogLevel env <= LOG_FATAL)%Z
  | Died (CheckOkFailed st) => ok st = false /\ 0 < sources_supplied flags
  | Died (CheckFailed _) => False
  end.
Proof.
  unfold main_load_spec, sources_supplied, LOG.
  destruct (empty (FLAGS_model flags)); simpl.
  - destruct (empty (FLAGS_normalization_rule_tsv flags)); simpl.
    + destruct (empty (FLAGS_normalization_rule_name flags)); simpl.
      * destruct (Z.gtb_spec (GetMinLogLevel env) LOG_FATAL); simpl;
          [right; lia | split; [reflexivity | lia]].
      * destruct (PopulateNormalizerSpec env _) as [[| msg] s]; simpl;
          [left | split]; auto.
    + destruct (PopulateNormalizerSpec env _) as [[| msg] s]; simpl;
        [left | split]; auto with arith.
  - destruct (Processor_Load env _) as [[| msg] mp]; simpl;
      [left | split]; auto with arith.
Qed.

(** The [for] loop ends well or with the status of a file that did not
    open. *)
Lemma main_read_files_outcome normalizer rest_args :
  match result (main_read_files env normalizer rest_args) with
  | Done _ => Forall (fun f => ok (fst (NewReadableFile env f)) = true)
                rest_args
  | Died (CheckOkFailed st) => ok st = false
  | Died _ => False
  end.
Proof.
  induction rest_args as [| filename rest_args IH]; [constructor |].
  rewrite main_read_files_cons.
  destruct (NewReadableFile env filename) as [st lines] eqn:Hopen.
  destruct (ok st) eqn:Hok; [| exact Hok].
  change (result (?t, ?r)) with r.
  destruct (result (main_read_files env normalizer rest_args))
    as [[] | [msg | st' | c]]; try exact IH.
  constructor; [rewrite Hopen; exact Hok | exact IH].
Qed.

Lemma main_load_spec_same_sources flags flags' :
  FLAGS_model flags = FLAGS_model flags' ->
  FLAGS_normalization_rule_tsv flags = FLAGS_normalization_rule_tsv flags' ->
  FLAGS_normalization_rule_name flags
  = FLAGS_normalization_rule_name flags' ->
  main_load_spec env flags = main_load_spec env flags'.
Proof.
  intros Hmodel Htsv Hname. unfold main_load_spec.
  rewrite Hmodel, Htsv, Hname. reflexivity.
Qed.

(** X1: when the chosen rule source fails to load, the run ends there with
    the loader's status.  No second source is tried (a model that does not
    load is fatal even if a rule TSV or name is supplied too), no engine is
    built, no input is read and no output file is created. *)
Theorem failed_rule_source_is_final flags argv why :
  result (main_load_spec env flags) = Died why ->
  main env flags argv = (trace (main_load_spec env flags), Died why)
  /\ length (trace (main_load_spec env flags)) <= 1
  /\ (empty (FLAGS_model flags) = false ->
      trace (main env flags argv) = [EvLoad (FLAGS_model flags)])
  /\ textless (trace (main env flags argv))
  /\ outputless (trace (main env flags argv)).
Proof.
  intros Hdied.
  assert (Hmain : main env flags argv
                  = (trace (main_load_spec env flags), Died why)).
  { rewrite (main_without_spec env flags argv why).
    - rewrite main_spec_trace. reflexivity.
    - rewrite main_spec_result, Hdied. reflexivity. }
  rewrite Hmain. change (trace (?t, ?r)) with t.
  split; [reflexivity | split; [| split; [| split]]].
  - clear. unfold main_load_spec.
    destruct (empty (FLAGS_model flags)); simpl.
    + destruct (empty (FLAGS_normalization_rule_tsv flags)); simpl.
      * destruct (empty (FLAGS_normalization_rule_name flags)); simpl;
          [unfold LOG; destruct (GetMinLogLevel env >? LOG_FATAL)%Z;
           simpl; lia |].
        destruct (PopulateNormalizerSpec env _) as [[| msg] s]; simpl; lia.
      * destruct (PopulateNormalizerSpec env _) as [[| msg] s]; simpl; lia.
    + destruct (Processor_Load env _) as [[| msg] mp]; simpl; lia.
  - intros Hmodel. rewrite (main_load_spec_model env flags Hmodel).
    reflexivity.
  - apply main_load_spec_textless.
  - apply main_load_spec_outputless.
Qed.

End NormalizeOutcomes.

Lemma failed_rule_source_is_final_witness :
  spm_normalize.main sample.world scenario.missing_model
    ["spm_normalize"; "a.txt"]
  = ([EvLoad "missing.model"],
     Died (CheckOkFailed (ErrorStatus "No such file or directory"))).
Proof.
  exact (proj1 (failed_rule_source_is_final sample.world
                  scenario.missing_model ["spm_normalize"; "a.txt"]
                  (CheckOkFailed (ErrorStatus "No such file or directory"))
                  eq_refl)).
Defined.

Section NormalizeModes.

Import spm_normalize.

Variable env : Collaborators.

(** X2: how a run of the normalize driver can end.  It returns 0 and
    nothing else.  It ends with the fatal message exactly when no rule
    source is supplied and the minimum log level is not above FATAL.  Every
    other abort carries the status, not OK, that a collaborator returned.
    A run never ends at a [CHECK]. *)
Theorem normalize_outcomes flags argv :
  (sources_supplied flags = 0 ->
   (GetMinLogLevel env <= LOG_FATAL)%Z ->
   exists message, result (main env flags argv) = Died (FatalLog message))
  /\ match result (main env flags argv) with
     | Done code => code = 0%Z
     | Died (FatalLog _) =>
         sources_supplied flags = 0 /\ (GetMinLogLevel env <= LOG_FATAL)%Z
     | Died (CheckOkFailed st) => ok st = false
     | Died (CheckFailed _) => False
     end.
Proof.
  pose proof (main_load_spec_outcome env flags) as Hload.
  split.
  - intros Hnone Hlevel.
    destruct (result (main_load_spec env flags)) as [loaded | why] eqn:Hres.
    + destruct Hload; lia.
    + rewrite (main_without_spec env flags argv why)
        by (rewrite main_spec_result, Hres; reflexivity).
      change (result (?t, ?r)) with r.
      destruct why as [message | st | c];
        [eauto | destruct Hload; lia | contradiction].
  - destruct (result (main_load_spec env flags)) as [loaded | why] eqn:Hres.
    + assert (Hspec : result (main_spec env flags)
                      = Done (main_override_flags flags loaded))
        by (rewrite main_spec_result, Hres; reflexivity).
      destruct (FLAGS_decompile flags) eqn:Hdec.
      * rewrite (main_decompiling env flags argv _ Hdec Hspec). cbv zeta.
        destruct (DecompileCharsMap env _) as [st chars_map].
        destruct (ok st) eqn:Hst; change (result (?t, ?r)) with r;
          [| assumption].
        destruct (ok (SaveCharsMap env _ _)) eqn:Hsave;
          solve [reflexivity | assumption].
      * rewrite (main_normalizing env flags argv _ Hdec Hspec). cbv zeta.
        destruct (ok (NewWritableFile env _)) eqn:Hout;
          change (result (?t, ?r)) with r; [| assumption].
        pose proof (main_read_files_outcome env
                      (mkNormalizer (main_override_flags flags loaded))
                      (main_input_files (main_rest_args flags argv)))
          as Hloop.
        destruct (result (main_read_files env _ _))
          as [[] | [msg | st' | c]]; try contradiction;
          solve [reflexivity | assumption].
    + rewrite (main_without_spec env flags argv why)
        by (rewrite main_spec_result, Hres; reflexivity).
      destruct why as [message | st | c];
        [exact Hload | exact (proj1 Hload) | exact Hload].
Qed.

(** X3: in "as-is" mode the --remove_extra_whitespaces flag has no effect:
    the run is the same, event for event, whatever value it is given. *)
Theorem as_is_ignores_remove_extra_whitespaces flags argv v :
  FLAGS_use_internal_normalization flags = true ->
  main env (with_remove_extra_whitespaces v flags) argv
  = main env flags argv.
Proof.
  intros Hmode.
  unfold main, main_spec, main_rest_args, main_override_flags.
  rewrite (main_load_spec_same_sources env
             (with_remove_extra_whitespaces v flags) flags)
    by reflexivity.
  simpl. rewrite Hmode. reflexivity.
Qed.

(** X4: a decompiling run depends on the three rule-source flags and the
    output name only.  Runs that agree on these are the same, event for
    event, whatever "as-is", --remove_extra_whitespaces, --input and the
    positional arguments are. *)
Theorem decompile_depends_on_sources_and_output flags flags' argv argv' :
  FLAGS_decompile flags = true ->
  FLAGS_decompile flags' = true ->
  decompile_inputs flags = decompile_inputs flags' ->
  main env flags argv = main env flags' argv'.
Proof.
  intros Hdec Hdec' Hsame. unfold decompile_inputs in Hsame.
  injection Hsame as Hmodel Htsv Hname Hout.
  pose proof (main_load_spec_same_sources env flags flags'
                Hmodel Htsv Hname) as Hload.
  destruct (result (main_load_spec env flags)) as [loaded | why] eqn:Hres.
  - assert (Hres' : result (main_load_spec env flags') = Done loaded)
      by (rewrite <- Hload; exact Hres).
    rewrite (main_decompiling env flags argv
               (main_override_flags flags loaded) Hdec)
      by (rewrite main_spec_result, Hres; reflexivity).
    rewrite (main_decompiling env flags' argv'
               (main_override_flags flags' loaded) Hdec')
      by (rewrite main_spec_result, Hres'; reflexivity).
    unfold precompiled_charsmap_bytes.
    rewrite !main_override_flags_charsmap, !main_spec_trace, Hload, Hout.
    reflexivity.
  - assert (Hres' : result (main_load_spec env flags') = Died why)
      by (rewrite <- Hload; exact Hres).
    rewrite (main_without_spec env flags argv why)
      by (rewrite main_spec_result, Hres; reflexivity).
    rewrite (main_without_spec env flags' argv' why)
      by (rewrite main_spec_result, Hres'; reflexivity).
    rewrite !main_spec_trace, Hload. reflexivity.
Qed.

End NormalizeModes.

Lemma as_is_ignores_remove_extra_whitespaces_witness :
  spm_normalize.main sample.world
    (with_remove_extra_whitespaces false sample.as_trained)
    ["spm_normalize"]
  = spm_normalize.main sample.world sample.as_trained ["spm_normalize"].
Proof.
  apply (as_is_ignores_remove_extra_whitespaces sample.world
           sample.as_trained ["spm_normalize"] false).
  reflexivity.
Defined.

Lemma decompile_depends_on_sources_and_output_witness :
  spm_normalize.main sample.world scenario.decompile_by_name
    ["spm_normalize"]
  = spm_normalize.main sample.world scenario.decompile_by_name_as_is
      ["spm_normalize"; "b.txt"].
Proof.
  apply (decompile_depends_on_sources_and_output sample.world
           scenario.decompile_by_name scenario.decompile_by_name_as_is);
    reflexivity.
Defined.

(** ** Failures while the normalize driver runs *)

Lemma tables_saved_app (t u : list Event) :
  tables_saved (t ++ u) = tables_saved t ++ tables_saved u.
Proof. apply flat_map_app. Qed.

Lemma specs_populated_app (t u : list Event) :
  specs_populated (t ++ u) = specs_populated t ++ specs_populated u.
Proof. apply flat_map_app. Qed.

Lemma outputless_app (t u : list Event) :
  outputless t -> outputless u -> outputless (t ++ u).
Proof. intros Ht Hu. apply Forall_app. split; assumption. Qed.

Lemma outputless_projections (t : list Event) :
  outputless t -> tables_saved t = [] /\ lines_written t = [].
Proof.
  induction 1 as [| e t He _ [IHs IHw]]; [split; reflexivity |].
  unfold tables_saved, lines_written in *.
  destruct e; try discriminate He; simpl; rewrite ?IHs, ?IHw;
    split; reflexivity.
Qed.

(** Events through which text passes neither resolve a spec nor save a
    rule table. *)
Lemma text_events_projections (t : list Event) :
  Forall (fun e => touches_text e = true) t ->
  specs_populated t = [] /\ tables_saved t = [].
Proof.
  induction 1 as [| e t He _ [IHp IHs]]; [split; reflexivity |].
  unfold specs_populated, tables_saved in *.
  destruct e; try discriminate He; simpl; rewrite ?IHp, ?IHs;
    split; reflexivity.
Qed.

Section NormalizeFailures.

Import spm_normalize.

Variable env : Collaborators.

Lemma line_events_touch_text normalizer lines :
  Forall (fun e => touches_text e = true)
    (flat_map (line_events env normalizer) lines).
Proof.
  induction lines as [| line lines IH]; [constructor |].
  simpl. repeat (constructor; [reflexivity |]). exact IH.
Qed.

Lemma main_read_files_touch_text normalizer rest_args :
  Forall (fun e => touches_text e = true)
    (trace (main_read_files env normalizer rest_args)).
Proof.
  induction rest_args as [| filename rest_args IH]; [constructor |].
  rewrite main_read_files_cons.
  destruct (NewReadableFile env filename) as [st lines].
  destruct (ok st).
  - change (trace (?a :: ?b ++ ?c, ?r)) with (a :: b ++ c).
    constructor; [reflexivity |].
    apply Forall_app. split; [apply line_events_touch_text | exact IH].
  - repeat constructor.
Qed.

(** Files that open are read through, and the loop goes on to the rest. *)
Lemma main_read_files_app normalizer good rest_args :
  Forall (fun f => ok (fst (NewReadableFile env f)) = true) good ->
  main_read_files env normalizer (good ++ rest_args)
  = (trace (main_read_files env normalizer good)
       ++ trace (main_read_files env normalizer rest_args),
     result (main_read_files env normalizer rest_args)).
Proof.
  induction 1 as [| filename good Hok _ IH].
  - simpl. destruct (main_read_files env normalizer rest_args).
    reflexivity.
  - rewrite <- app_comm_cons, !main_read_files_cons.
    destruct (NewReadableFile env filename) as [st lines].
    simpl in Hok. rewrite Hok, IH.
    change (trace (?t, ?r)) with t. change (result (?t, ?r)) with r.
    rewrite <- app_comm_cons, app_assoc. reflexivity.
Qed.

(** Outside decompile mode the lines written are the normalizations of the
    lines read. *)
Lemma main_lines_written flags argv spec :
  FLAGS_decompile flags = false ->
  result (main_spec env flags) = Done spec ->
  lines_written (trace (main env flags argv))
  = map (Normalize env (mkNormalizer spec))
      (lines_read (trace (main env flags argv))).
Proof.
  intros Hdec Hres.
  rewrite (main_normalizing env flags argv spec Hdec Hres). cbv zeta.
  destruct (textless_projections _ (main_spec_textless env flags))
    as (Sr & Sw & _ & _ & _).
  destruct (main_read_files_any env (mkNormalizer spec)
              (main_input_files (main_rest_args flags argv)))
    as (_ & Lw & _ & _).
  destruct (ok (NewWritableFile env (FLAGS_output flags))).
  - change (trace (?a ++ ?b :: ?c :: ?d, ?r)) with (a ++ [b; c] ++ d).
    autorewrite with projections. rewrite Sr, Sw. exact Lw.
  - change (trace (?a ++ ?l, ?r)) with (a ++ l).
    autorewrite with projections. rewrite Sr, Sw. reflexivity.
Qed.

(** X5: the output is opened before any input.  When it cannot be
    created, the run ends with its status: the engine has been built, but
    no input file is opened and no line is read or written. *)
Theorem unwritable_output_reads_nothing flags argv spec :
  FLAGS_decompile flags = false ->
  result (main_spec env flags) = Done spec ->
  ok (NewWritableFile env (FLAGS_output flags)) = false ->
  let t := trace (main env flags argv) in
  result (main env flags argv)
  = Died (CheckOkFailed (NewWritableFile env (FLAGS_output flags)))
  /\ engines_built t = [spec]
  /\ files_opened t = []
  /\ lines_read t = []
  /\ lines_written t = [].
Proof.
  intros Hdec Hres Hout. cbv zeta.
  rewrite (main_normalizing env flags argv spec Hdec Hres). cbv zeta.
  rewrite Hout.
  destruct (textless_projections _ (main_spec_textless env flags))
    as (Sr & Sw & Sf & Se & _).
  change (trace (?a ++ ?l, ?r)) with (a ++ l).
  autorewrite with projections. rewrite Sr, Sw, Sf, Se.
  repeat split.
Qed.

(** X6: the loop stops at the first input file that does not open.  The
    files before it have been read and their lines written, the run ends
    with the status of the file that failed, and the files after it are
    never opened. *)
Theorem stops_at_first_unreadable_input flags argv spec good bad rest :
  FLAGS_decompile flags = false ->
  result (main_spec env flags) = Done spec ->
  ok (NewWritableFile env (FLAGS_output flags)) = true ->
  main_input_files (main_rest_args flags argv) = good ++ bad :: rest ->
  Forall (fun f => ok (fst (NewReadableFile env f)) = true) good ->
  ok (fst (NewReadableFile env bad)) = false ->
  let t := trace (main env flags argv) in
  result (main env flags argv)
  = Died (CheckOkFailed (fst (NewReadableFile env bad)))
  /\ files_opened t = good ++ [bad]
  /\ lines_read t = flat_map (fun f => snd (NewReadableFile env f)) good
  /\ lines_written t
     = map (Normalize env (mkNormalizer spec))
         (flat_map (fun f => snd (NewReadableFile env f)) good).
Proof.
  intros Hdec Hres Hout Hfiles Hgood Hbad. cbv zeta.
  destruct (main_files_opened_loop env flags argv spec Hdec Hres Hout)
    as (Hf & Hl & Hr).
  rewrite (main_lines_written flags argv spec Hdec Hres), Hf, Hl, Hr, Hfiles.
  rewrite (main_read_files_app (mkNormalizer spec) good (bad :: rest) Hgood).
  change (trace (?t, ?r)) with t. change (result (?t, ?r)) with r.
  destruct (main_read_files_all_ok env (mkNormalizer spec) good Hgood)
    as (_ & Gf & Gl).
  rewrite main_read_files_cons.
  destruct (NewReadableFile env bad) as [st lines]. simpl in Hbad.
  rewrite Hbad. change (trace (?t, ?r)) with t.
  change (result (?t, ?r)) with r.
  autorewrite with projections. rewrite Gf, Gl. simpl.
  repeat split.
Qed.

End NormalizeFailures.

Lemma unwritable_output_reads_nothing_witness :
  result (spm_normalize.main scenario.read_only_world sample.only_rule_tsv
            ["spm_normalize"; "a.txt"])
  = Died (CheckOkFailed (ErrorStatus "Permission denied"))
  /\ files_opened
       (trace (spm_normalize.main scenario.read_only_world
                 sample.only_rule_tsv ["spm_normalize"; "a.txt"]))
     = [].
Proof.
  destruct (unwritable_output_reads_nothing scenario.read_only_world
              sample.only_rule_tsv ["spm_normalize"; "a.txt"]
              (spm_normalize.main_override_flags sample.only_rule_tsv
                 (sample.populate
                    (set_normalization_rule_tsv "rules.tsv"
                       NormalizerSpec_new)))
              eq_refl eq_refl eq_refl) as (Hresult & _ & Hfiles & _).
  split; [exact Hresult | exact Hfiles].
Defined.

Lemma stops_at_first_unreadable_input_witness :
  files_opened
    (trace (spm_normalize.main sample.world sample.only_rule_tsv
              ["spm_normalize"; "b.txt"; "nowhere.txt"; "a.txt"]))
  = ["b.txt"; "nowhere.txt"]
  /\ lines_written
       (trace (spm_normalize.main sample.world sample.only_rule_tsv
                 ["spm_normalize"; "b.txt"; "nowhere.txt"; "a.txt"]))
     = ["b one "].
Proof.
  assert (Hgood : Forall
            (fun f =>
               ok (fst (spm_normalize.NewReadableFile sample.world f))
               = true) ["b.txt"])
    by (constructor; [reflexivity | constructor]).
  destruct (stops_at_first_unreadable_input sample.world
              sample.only_rule_tsv
              ["spm_normalize"; "b.txt"; "nowhere.txt"; "a.txt"]
              (spm_normalize.main_override_flags sample.only_rule_tsv
                 (sample.populate
                    (set_normalization_rule_tsv "rules.tsv"
                       NormalizerSpec_new)))
              ["b.txt"] "nowhere.txt" ["a.txt"]
              eq_refl eq_refl eq_refl eq_refl
              Hgood eq_refl)
    as (_ & Hfiles & _ & Hwritten).
  split; [exact Hfiles | exact Hwritten].
Defined.

(** ** What a completed run of the normalize driver has done *)

Section NormalizeCompletion.

Import spm_normalize.

Variable env : Collaborators.

Lemma main_load_spec_saves_nothing flags :
  tables_saved (trace (main_load_spec env flags)) = [].
Proof.
  apply (outputless_projections _ (main_load_spec_outputless env flags)).
Qed.

(** The events after spec resolution populate nothing. *)
Lemma main_specs_populated flags argv :
  specs_populated (trace (main env flags argv))
  = specs_populated (trace (main_load_spec env flags)).
Proof.
  destruct (result (main_spec env flags)) as [spec | why] eqn:Hres.
  - destruct (FLAGS_decompile flags) eqn:Hdec.
    + rewrite (main_decompiling env flags argv spec Hdec Hres). cbv zeta.
      destruct (DecompileCharsMap env _) as [st chars_map].
      destruct (ok st); change (trace (?a ++ ?l, ?r)) with (a ++ l);
        rewrite specs_populated_app, main_spec_trace; apply app_nil_r.
    + rewrite (main_normalizing env flags argv spec Hdec Hres). cbv zeta.
      destruct (text_events_projections _
                  (main_read_files_touch_text env (mkNormalizer spec)
                     (main_input_files (main_rest_args flags argv))))
        as [Hnone _].
      destruct (ok (NewWritableFile env _)).
      * change (trace (?a ++ ?b :: ?c :: ?d, ?r)) with (a ++ [b; c] ++ d).
        rewrite !specs_populated_app, Hnone, main_spec_trace.
        apply app_nil_r.
      * change (trace (?a ++ ?l, ?r)) with (a ++ l).
        rewrite specs_populated_app, main_spec_trace. apply app_nil_r.
  - rewrite (main_without_spec env flags argv why Hres).
    change (trace (?t, ?r)) with t. rewrite main_spec_trace. reflexivity.
Qed.

(** X7: when the charsmap does not decompile, the run ends with the
    decompiler's status and nothing is saved: no output file is created or
    written. *)
Theorem undecodable_charsmap_saves_nothing flags argv spec :
  FLAGS_decompile flags = true ->
  result (main_spec env flags) = Done spec ->
  ok (fst (DecompileCharsMap env (precompiled_charsmap_bytes spec)))
  = false ->
  result (main env flags argv)
  = Died (CheckOkFailed
            (fst (DecompileCharsMap env (precompiled_charsmap_bytes spec))))
  /\ tables_saved (trace (main env flags argv)) = []
  /\ outputless (trace (main env flags argv)).
Proof.
  intros Hdec Hres Hbad.
  rewrite (main_decompiling env flags argv spec Hdec Hres). cbv zeta.
  destruct (DecompileCharsMap env _) as [st chars_map]. simpl in Hbad.
  rewrite Hbad. change (trace (?a ++ ?l, ?r)) with (a ++ l).
  change (result (?t, ?r)) with r.
  assert (Hquiet : outputless (trace (main_spec env flags) ++
                               [EvDecompileCharsMap
                                  (precompiled_charsmap_bytes spec)])).
  { apply outputless_app; [| repeat constructor].
    rewrite main_spec_trace. apply main_load_spec_outputless. }
  split; [reflexivity | split; [| exact Hquiet]].
  apply (outputless_projections _ Hquiet).
Qed.

(** X8: [PopulateNormalizerSpec] is called only when no model is given,
    and the spec it is handed has exactly one field set: the rule TSV
    when that flag is not empty, and the rule name only when the rule TSV
    flag is empty too.  It never sees both, nor any behaviour flag. *)
Theorem populate_sees_one_source flags argv spec :
  In spec (specs_populated (trace (main env flags argv))) ->
  empty (FLAGS_model flags) = true
  /\ (empty (FLAGS_normalization_rule_tsv flags) = false
      /\ spec = {| name := None;
                   precompiled_charsmap := None;
                   add_dummy_prefix := None;
                   remove_extra_whitespaces := None;
                   escape_whitespaces := None;
                   normalization_rule_tsv :=
                     Some (FLAGS_normalization_rule_tsv flags) |}
      \/ empty (FLAGS_normalization_rule_tsv flags) = true
         /\ empty (FLAGS_normalization_rule_name flags) = false
         /\ spec = {| name := Some (FLAGS_normalization_rule_name flags);
                      precompiled_charsmap := None;
                      add_dummy_prefix := None;
                      remove_extra_whitespaces := None;
                      escape_whitespaces := None;
                      normalization_rule_tsv := None |}).
Proof.
  rewrite main_specs_populated. unfold main_load_spec.
  destruct (empty (FLAGS_model flags)); simpl.
  - destruct (empty (FLAGS_normalization_rule_tsv flags)); simpl.
    + destruct (empty (FLAGS_normalization_rule_name flags)); simpl;
        [unfold LOG; destruct (GetMinLogLevel env >? LOG_FATAL)%Z;
         intros [] |].
      destruct (PopulateNormalizerSpec env _) as [[| msg] s]; simpl;
        intros [<- | []]; split; try reflexivity; right; repeat split.
    + destruct (PopulateNormalizerSpec env _) as [[| msg] s]; simpl;
        intros [<- | []]; split; try reflexivity; left; repeat split.
  - destruct (Processor_Load env _) as [[| msg] mp]; simpl; intros [].
Qed.

(** X9: standard input is opened only when nothing else is named: --input
    is empty, and either no positional argument is left or one of them is
    the empty string. *)
Theorem stdin_only_when_nothing_named flags argv :
  In stdin_filename (files_opened (trace (main env flags argv))) ->
  empty (FLAGS_input flags) = true
  /\ (tl argv = [] \/ In "" (tl argv)).
Proof.
  intros Hopened.
  apply (main_files_opened env flags argv) in Hopened.
  unfold main_rest_args in Hopened.
  destruct (empty (FLAGS_input flags)) eqn:Hinput.
  - split; [reflexivity |].
    rewrite positional_arguments in Hopened.
    destruct (tl argv) as [| a rest]; [left; reflexivity |].
    right. exact Hopened.
  - destruct Hopened as [Hnamed | []].
    rewrite Hnamed in Hinput. discriminate.
Qed.

(** X10: a run returns only after the whole job is done.  In decompile
    mode the charsmap decompiled and exactly one rule table was saved, the
    decompiled one, under the output name, and the save succeeded.
    Otherwise the output opened, every input file was opened, in order,
    and the lines written are the normalizations of all their lines. *)
Theorem returns_only_when_done flags argv code :
  result (main env flags argv) = Done code ->
  exists spec,
    result (main_spec env flags) = Done spec
    /\ (FLAGS_decompile flags = true ->
        exists chars_map,
          DecompileCharsMap env (precompiled_charsmap_bytes spec)
          = (OkStatus, chars_map)
          /\ SaveCharsMap env (FLAGS_output flags) chars_map = OkStatus
          /\ tables_saved (trace (main env flags argv))
             = [(FLAGS_output flags, chars_map)])
    /\ (FLAGS_decompile flags = false ->
        NewWritableFile env (FLAGS_output flags) = OkStatus
        /\ files_opened (trace (main env flags argv))
           = main_input_files (main_rest_args flags argv)
        /\ lines_written (trace (main env flags argv))
           = map (Normalize env (mkNormalizer spec))
               (flat_map (fun f => snd (NewReadableFile env f))
                  (main_input_files (main_rest_args flags argv)))).
Proof.
  intros Hdone.
  destruct (result (main_spec env flags)) as [spec | why] eqn:Hres.
  - exists spec. split; [reflexivity | split]; intros Hdec.
    + revert Hdone.
      rewrite (main_decompiling env flags argv spec Hdec Hres). cbv zeta.
      destruct (DecompileCharsMap env _) as [[| msg] chars_map]; simpl;
        [| discriminate].
      destruct (SaveCharsMap env _ _) as [| msg] eqn:Hsave; simpl;
        [| discriminate].
      intros _. exists chars_map.
      split; [reflexivity | split; [exact Hsave |]].
      rewrite tables_saved_app, main_spec_trace,
        main_load_spec_saves_nothing.
      reflexivity.
    + revert Hdone.
      destruct (NewWritableFile env (FLAGS_output flags)) as [| msg] eqn:Hout.
      * assert (Hok : ok (NewWritableFile env (FLAGS_output flags)) = true)
          by (rewrite Hout; reflexivity).
        destruct (main_files_opened_loop env flags argv spec Hdec Hres Hok)
          as (Hf & Hl & Hr).
        rewrite (main_lines_written env flags argv spec Hdec Hres).
        rewrite Hf, Hl, Hr.
        pose proof (main_read_files_outcome env (mkNormalizer spec)
                      (main_input_files (main_rest_args flags argv)))
          as Hloop.
        destruct (result (main_read_files env _ _)) as [[] | why];
          [| discriminate].
        intros _.
        destruct (main_read_files_all_ok env (mkNormalizer spec) _ Hloop)
          as (_ & -> & ->).
        repeat split.
      * rewrite (main_normalizing env flags argv spec Hdec Hres).
        cbv zeta. rewrite Hout. discriminate.
  - rewrite (main_without_spec env flags argv why Hres) in Hdone.
    discriminate.
Qed.

End NormalizeCompletion.

Lemma undecodable_charsmap_saves_nothing_witness :
  result (spm_normalize.main scenario.uncompiled_world
            scenario.decompile_by_name ["spm_normalize"])
  = Died (CheckOkFailed (ErrorStatus "blob is empty"))
  /\ tables_saved
       (trace (spm_normalize.main scenario.uncompiled_world
                 scenario.decompile_by_name ["spm_normalize"]))
     = [].
Proof.
  destruct (undecodable_charsmap_saves_nothing scenario.uncompiled_world
              scenario.decompile_by_name ["spm_normalize"]
              (spm_normalize.main_override_flags scenario.decompile_by_name
                 (set_name "identity" NormalizerSpec_new))
              eq_refl eq_refl eq_refl) as (Hresult & Hsaved & _).
  split; [exact Hresult | exact Hsaved].
Defined.

Lemma populate_sees_one_source_witness :
  In (set_name "identity" NormalizerSpec_new)
    (specs_populated
       (trace (spm_normalize.main sample.world sample.only_rule_name
                 ["spm_normalize"])))
  /\ empty (spm_normalize.FLAGS_model sample.only_rule_name) = true.
Proof.
  assert (Hcalled : In (set_name "identity" NormalizerSpec_new)
            (specs_populated
               (trace (spm_normalize.main sample.world
                         sample.only_rule_name ["spm_normalize"]))))
    by (left; reflexivity).
  split; [exact Hcalled |].
  exact (proj1 (populate_sees_one_source sample.world sample.only_rule_name
                  ["spm_normalize"] (set_name "identity" NormalizerSpec_new)
                  Hcalled)).
Defined.

Lemma stdin_only_when_nothing_named_witness :
  In spm_normalize.stdin_filename
    (files_opened
       (trace (spm_normalize.main sample.world sample.only_rule_tsv
                 ["spm_normalize"])))
  /\ empty (spm_normalize.FLAGS_input sample.only_rule_tsv) = true.
Proof.
  assert (Hopened : In spm_normalize.stdin_filename
            (files_opened
               (trace (spm_normalize.main sample.world sample.only_rule_tsv
                         ["spm_normalize"]))))
    by (left; reflexivity).
  split; [exact Hopened |].
  exact (proj1 (stdin_only_when_nothing_named sample.world
                  sample.only_rule_tsv ["spm_normalize"] Hopened)).
Defined.

Lemma returns_only_when_done_witness :
  exists spec,
    result (spm_normalize.main_spec sample.world sample.three_sources)
    = Done spec
    /\ lines_written
         (trace (spm_normalize.main sample.world sample.three_sources
                   ["spm_normalize"; "a.txt"; "b.txt"]))
       = map (spm_normalize.Normalize sample.world (mkNormalizer spec))
           ["a one"; "a two"; "b one"].
Proof.
  destruct (returns_only_when_done sample.world sample.three_sources
              ["spm_normalize"; "a.txt"; "b.txt"] 0%Z eq_refl)
    as (spec & Hspec & _ & Hnormal).
  exists spec. split; [exact Hspec |].
  exact (proj2 (proj2 (Hnormal eq_refl))).
Defined.

(** ** Further properties of the training driver *)

Section TrainOutcomes.

Import spm_train.

Context {TrainerFlags TrainerSpec : Type}.
Variable env : Collaborators TrainerFlags TrainerSpec.
Variable flags : Flags TrainerFlags.

(** [main] once both [CHECK]s have passed. *)
Lemma main_checked :
  empty (FLAGS_input flags) = false ->
  empty (FLAGS_model_prefix flags) = false ->
  main env flags
  = let seeding :=
      if (FLAGS_random_seed flags =? to_uint32 (-1))%Z then []
      else [EvSetRandomGeneratorSeed (FLAGS_random_seed flags)] in
    let (st, trainer_spec) := SetTrainerSpecFromFlags env flags in
    if ok st then
      let (st', trainer_spec') :=
        PopulateModelTypeFromString env (FLAGS_model_type flags)
          trainer_spec in
      if ok st' then
        (seeding
           ++ [EvSetTrainerSpecFromFlags;
               EvPopulateModelTypeFromString (FLAGS_model_type flags);
               EvTrain trainer_spec' (main_normalizer_spec flags)
                 (main_denormalizer_spec flags)],
         let st'' :=
           Train env trainer_spec' (main_normalizer_spec flags)
             (main_denormalizer_spec flags) in
         if ok st'' then Done 0%Z else Died (CheckOkFailed st''))
      else
        (seeding
           ++ [EvSetTrainerSpecFromFlags;
               EvPopulateModelTypeFromString (FLAGS_model_type flags)],
         Died (CheckOkFailed st'))
    else (seeding ++ [EvSetTrainerSpecFromFlags], Died (CheckOkFailed st)).
Proof.
  intros Hinput Hprefix. unfold main, CHECK, CHECK_OK.
  rewrite Hinput, Hprefix. cbv zeta.
  destruct (SetTrainerSpecFromFlags env flags) as [st trainer_spec].
  destruct (PopulateModelTypeFromString env _ trainer_spec)
    as [st' trainer_spec'].
  destruct (FLAGS_random_seed flags =? to_uint32 (-1))%Z;
    destruct (ok st); simpl; try reflexivity;
    destruct (ok st'); simpl; try reflexivity;
    destruct (ok (Train env _ _ _)); reflexivity.
Qed.

(** X11: the two [CHECK]s come first.  A run ends at a [CHECK] exactly
    when --input or --model_prefix is empty, and then nothing at all has
    happened: the generator is not seeded even if a seed is given, no file
    is read and [Train] is not called. *)
Theorem unchecked_flags_stop_training :
  ((exists condition, result (main env flags) = Died (CheckFailed condition))
   <-> empty (FLAGS_input flags) = true
       \/ empty (FLAGS_model_prefix flags) = true)
  /\ (empty (FLAGS_input flags) = true
      \/ empty (FLAGS_model_prefix flags) = true ->
      trace (main env flags) = []).
Proof.
  destruct (empty (FLAGS_input flags)) eqn:Hinput.
  - unfold main, CHECK. rewrite Hinput. simpl.
    split; [split |]; eauto.
  - destruct (empty (FLAGS_model_prefix flags)) eqn:Hprefix.
    + unfold main, CHECK. rewrite Hinput, Hprefix. simpl.
      split; [split |]; eauto.
    + split; [split |].
      * rewrite (main_checked Hinput Hprefix). cbv zeta.
        destruct (SetTrainerSpecFromFlags env flags) as [st trainer_spec].
        destruct (PopulateModelTypeFromString env _ trainer_spec)
          as [st' trainer_spec'].
        destruct (ok st); [destruct (ok st') |];
          change (result (?t, ?r)) with r;
          try destruct (ok (Train env _ _ _));
          intros [condition Hdied]; discriminate.
      * intros [Hempty | Hempty]; discriminate.
      * intros [Hempty | Hempty]; discriminate.
Qed.

(** X12: once the [CHECK]s have passed, the random generator is seeded,
    with the flag's value, exactly when --random_seed is not 4294967295,
    the value that -1 has as a [uint32]: that one seed cannot be asked
    for. *)
Theorem seeded_unless_all_ones :
  empty (FLAGS_input flags) = false ->
  empty (FLAGS_model_prefix flags) = false ->
  to_uint32 (-1) = 4294967295%Z
  /\ seeds_set (trace (main env flags))
     = if (FLAGS_random_seed flags =? 4294967295)%Z then []
       else [FLAGS_random_seed flags].
Proof.
  intros Hinput Hprefix. split; [reflexivity |].
  rewrite (main_checked Hinput Hprefix). cbv zeta.
  change (to_uint32 (-1)) with 4294967295%Z.
  destruct (SetTrainerSpecFromFlags env flags) as [st trainer_spec].
  destruct (PopulateModelTypeFromString env _ trainer_spec)
    as [st' trainer_spec'].
  destruct (FLAGS_random_seed flags =? 4294967295)%Z;
    destruct (ok st); try destruct (ok st'); reflexivity.
Qed.

(** X13: the normalizer spec handed to [Train] has its name, rule TSV,
    add_dummy_prefix and remove_extra_whitespaces set from the flags, the
    rule TSV even when that flag is empty, and never has escape_whitespaces
    or a precompiled charsmap set. *)
Theorem normalizer_spec_from_flags trainer_spec normalizer denormalizer :
  In (trainer_spec, normalizer, denormalizer)
    (trainings (trace (main env flags))) ->
  normalizer
  = {| name := Some (FLAGS_normalization_rule_name flags);
       precompiled_charsmap := None;
       add_dummy_prefix := Some (FLAGS_add_dummy_prefix flags);
       remove_extra_whitespaces :=
         Some (FLAGS_remove_extra_whitespaces flags);
       escape_whitespaces := None;
       normalization_rule_tsv :=
         Some (FLAGS_normalization_rule_tsv flags) |}.
Proof.
  destruct (empty (FLAGS_input flags)) eqn:Hinput;
    [unfold main, CHECK; rewrite Hinput; intros [] |].
  destruct (empty (FLAGS_model_prefix flags)) eqn:Hprefix;
    [unfold main, CHECK; rewrite Hinput, Hprefix; intros [] |].
  rewrite (main_checked Hinput Hprefix). cbv zeta.
  destruct (SetTrainerSpecFromFlags env flags) as [st ts].
  destruct (PopulateModelTypeFromString env _ ts) as [st' ts'].
  destruct (FLAGS_random_seed flags =? to_uint32 (-1))%Z;
    destruct (ok st); try destruct (ok st'); simpl;
    intros Hin; try contradiction;
    destruct Hin as [[= _ <- _] | []]; reflexivity.
Qed.

(** X14: the training driver returns, and then returns 0, only after
    [Train] was called once and reported OK, on the trainer spec that
    [PopulateModelTypeFromString] made of the one filled from the flags;
    both of these steps reported OK as well. *)
Theorem returns_only_when_trained code :
  result (main env flags) = Done code ->
  code = 0%Z
  /\ exists trainer_spec trainer_spec',
       SetTrainerSpecFromFlags env flags = (OkStatus, trainer_spec)
       /\ PopulateModelTypeFromString env (FLAGS_model_type flags)
            trainer_spec
          = (OkStatus, trainer_spec')
       /\ trainings (trace (main env flags))
          = [(trainer_spec', main_normalizer_spec flags,
              main_denormalizer_spec flags)]
       /\ Train env trainer_spec' (main_normalizer_spec flags)
            (main_denormalizer_spec flags)
          = OkStatus.
Proof.
  destruct (empty (FLAGS_input flags)) eqn:Hinput;
    [unfold main, CHECK; rewrite Hinput; discriminate |].
  destruct (empty (FLAGS_model_prefix flags)) eqn:Hprefix;
    [unfold main, CHECK; rewrite Hinput, Hprefix; discriminate |].
  rewrite (main_checked Hinput Hprefix). cbv zeta.
  destruct (SetTrainerSpecFromFlags env flags) as [[| msg] ts] eqn:Hspec;
    [| discriminate].
  destruct (PopulateModelTypeFromString env _ ts) as [[| msg] ts']
    eqn:Htype; [| discriminate].
  simpl.
  destruct (Train env ts' _ _) as [| msg] eqn:Htrain; [| discriminate].
  intros [= <-]. split; [reflexivity |].
  exists ts, ts'.
  split; [reflexivity | split; [exact Htype | split; [| exact Htrain]]].
  destruct (FLAGS_random_seed flags =? to_uint32 (-1))%Z; reflexivity.
Qed.

End TrainOutcomes.

Lemma unchecked_flags_stop_training_witness :
  trace (spm_train.main sample.trainer scenario.train_without_input) = []
  /\ exists condition,
       result (spm_train.main sample.trainer scenario.train_without_input)
       = Died (CheckFailed condition).
Proof.
  destruct (unchecked_flags_stop_training sample.trainer
              scenario.train_without_input) as [[_ Hdied] Hquiet].
  split; [exact (Hquiet (or_introl eq_refl))
         | exact (Hdied (or_introl eq_refl))].
Defined.

Lemma seeded_unless_all_ones_witness :
  seeds_set (trace (spm_train.main sample.trainer scenario.train_seeded))
  = [42%Z]
  /\ seeds_set
       (trace (spm_train.main sample.trainer
                 sample.train_with_denormalizer))
     = [].
Proof.
  split.
  - exact (proj2 (seeded_unless_all_ones sample.trainer
                    scenario.train_seeded eq_refl eq_refl)).
  - exact (proj2 (seeded_unless_all_ones sample.trainer
                    sample.train_with_denormalizer eq_refl eq_refl)).
Defined.

Lemma normalizer_spec_from_flags_witness :
  spm_train.main_normalizer_spec scenario.train_seeded
  = {| name := Some "nmt_nfkc";
       precompiled_charsmap := None;
       add_dummy_prefix := Some true;
       remove_extra_whitespaces := Some false;
       escape_whitespaces := None;
       normalization_rule_tsv := Some "" |}.
Proof.
  apply (normalizer_spec_from_flags sample.trainer scenario.train_seeded
           "bpe" _ (spm_train.main_denormalizer_spec scenario.train_seeded)).
  left. reflexivity.
Defined.

Lemma returns_only_when_trained_witness :
  exists trainer_spec trainer_spec',
    spm_train.SetTrainerSpecFromFlags sample.trainer scenario.train_seeded
    = (OkStatus, trainer_spec)
    /\ spm_train.PopulateModelTypeFromString sample.trainer "bpe"
         trainer_spec
       = (OkStatus, trainer_spec')
    /\ trainings (trace (spm_train.main sample.trainer
                           scenario.train_seeded))
       = [(trainer_spec',
           spm_train.main_normalizer_spec scenario.train_seeded,
           spm_train.main_denormalizer_spec scenario.train_seeded)]
    /\ spm_train.Train sample.trainer trainer_spec'
         (spm_train.main_normalizer_spec scenario.train_seeded)
         (spm_train.main_denormalizer_spec scenario.train_seeded)
       = OkStatus.
Proof.
  exact (proj2 (returns_only_when_trained sample.trainer
                  scenario.train_seeded 0%Z eq_refl)).
Defined.

(** ** Filling the trainer spec *)

Section TrainerSpecFacts.

Import spm_train_macros.

Context {Real : Type}.
Variable GetFlag : string -> Value Real.
Variable StrSplitAsCSV : string -> list string.
Variable NewReadableFile : string -> Status * list string.
Variable as_field : string -> Value Real -> Value Real.

Lemma load_lines_loop_eq (stream lines : list string) :
  load_lines_loop stream lines
  = (map EvReadLine stream, Done (lines ++ stream)).
Proof.
  revert lines. induction stream as [| line stream IH]; intros lines.
  - simpl. rewrite app_nil_r. reflexivity.
  - simpl. rewrite IH, <- app_assoc. reflexivity.
Qed.

Lemma load_lines_eq (filename : string) :
  load_lines NewReadableFile filename
  = let (st, stream) := NewReadableFile filename in
    if ok st
    then (EvNewReadableFile filename :: map EvReadLine stream, Done stream)
    else ([EvNewReadableFile filename], Died (CheckOkFailed st)).
Proof.
  unfold load_lines, CHECK_OK.
  destruct (NewReadableFile filename) as [st stream].
  destruct (ok st); simpl; [| reflexivity].
  rewrite load_lines_loop_eq. reflexivity.
Qed.


Lemma repeated_add_each name vs (ts : TrainerSpec Real) n :
  repeated (add_each name vs ts) n
  = repeated ts n ++ (if String.eqb n name then vs else []).
Proof.
  unfold add_each. revert ts.
  induction vs as [| v vs IH]; intros ts.
  - simpl. destruct (String.eqb n name); rewrite app_nil_r; reflexivity.
  - simpl. rewrite IH. simpl.
    destruct (String.eqb n name); [rewrite <- app_assoc |]; reflexivity.
Qed.


Lemma repeated_SetRepeatedTrainerSpecFromFlag name (ts : TrainerSpec Real)
    n :
  repeated (SetRepeatedTrainerSpecFromFlag GetFlag StrSplitAsCSV name ts) n
  = repeated ts n
    ++ (if String.eqb n name
        then flag_items GetFlag StrSplitAsCSV name else []).
Proof.
  unfold SetRepeatedTrainerSpecFromFlag, flag_items.
  destruct (empty (string_of (GetFlag name))); simpl.
  - destruct (String.eqb n name); rewrite app_nil_r; reflexivity.
  - apply repeated_add_each.
Qed.


Lemma repeated_SetTrainerSpecFromFlags names (ts : TrainerSpec Real) n :
  repeated (SetTrainerSpecFromFlags GetFlag as_field names ts) n = repeated ts n.
Proof.
  unfold SetTrainerSpecFromFlags. revert ts.
  induction names as [| name names IH]; intros ts; [reflexivity |].
  simpl. rewrite IH. reflexivity.
Qed.


Lemma repeated_set_ name v (ts : TrainerSpec Real) n :
  repeated (set_ name v ts) n = repeated ts n.
Proof. reflexivity. Qed.


Lemma repeated_SetTrainerSpecFromFlag name (ts : TrainerSpec Real) n :
  repeated (SetTrainerSpecFromFlag GetFlag as_field name ts) n = repeated ts n.
Proof. reflexivity. Qed.


Lemma repeated_if (b : bool) (x y : TrainerSpec Real) n :
  repeated (if b then x else y) n
  = if b then repeated x n else repeated y n.
Proof. destruct b; reflexivity. Qed.

(** The two [File] macros, case by case. *)
Lemma SetTrainerSpecFromFile_eq name (ts : TrainerSpec Real) :
  SetTrainerSpecFromFile GetFlag NewReadableFile as_field name ts
  = let file := string_of (GetFlag (name ++ "_file")) in
    if empty file then ([], Done ts)
    else let (st, stream) := NewReadableFile file in
         if ok st
         then (EvNewReadableFile file :: map EvReadLine stream,
               Done (set_ name (as_field name (VString (String.concat "" stream)))
                       ts))
         else ([EvNewReadableFile file], Died (CheckOkFailed st)).
Proof.
  unfold SetTrainerSpecFromFile. cbv zeta.
  destruct (empty (string_of (GetFlag (name ++ "_file")))); simpl;
    [reflexivity |].
  rewrite load_lines_eq.
  destruct (NewReadableFile _) as [st stream].
  destruct (ok st); simpl; [rewrite app_nil_r |]; reflexivity.
Qed.

Lemma SetRepeatedTrainerSpecFromFile_eq name (ts : TrainerSpec Real) :
  SetRepeatedTrainerSpecFromFile GetFlag NewReadableFile name ts
  = let file := string_of (GetFlag (name ++ "_file")) in
    if empty file then ([], Done ts)
    else let (st, stream) := NewReadableFile file in
         if ok st
         then (EvNewReadableFile file :: map EvReadLine stream,
               Done (add_each name stream ts))
         else ([EvNewReadableFile file], Died (CheckOkFailed st)).
Proof.
  unfold SetRepeatedTrainerSpecFromFile. cbv zeta.
  destruct (empty (string_of (GetFlag (name ++ "_file")))); simpl;
    [reflexivity |].
  rewrite load_lines_eq.
  destruct (NewReadableFile _) as [st stream].
  destruct (ok st); simpl; [rewrite app_nil_r |]; reflexivity.
Qed.


Lemma lines_read_map_EvReadLine (stream : list string) :
  lines_read (map EvReadLine stream) = stream
  /\ files_opened (map EvReadLine stream) = [].
Proof.
  induction stream as [| line stream [IHr IHf]]; [split; reflexivity |].
  unfold lines_read, files_opened in *. simpl. rewrite IHr, IHf.
  split; reflexivity.
Qed.

(** X15: [load_lines] opens the named file once.  When it opens, the
    lines returned are the lines of the file, all of them and in order,
    each read once; when it does not, the run ends with the file's status
    and nothing is read. *)
Theorem load_lines_returns_the_lines (filename : string) :
  let run := load_lines NewReadableFile filename in
  files_opened (trace run) = [filename]
  /\ (ok (fst (NewReadableFile filename)) = true ->
      result run = Done (snd (NewReadableFile filename))
      /\ lines_read (trace run) = snd (NewReadableFile filename))
  /\ (ok (fst (NewReadableFile filename)) = false ->
      result run = Died (CheckOkFailed (fst (NewReadableFile filename)))
      /\ lines_read (trace run) = []).
Proof.
  cbv zeta. rewrite load_lines_eq.
  destruct (NewReadableFile filename) as [st stream]. simpl.
  destruct (lines_read_map_EvReadLine stream) as [Hr Hf].
  destruct (ok st).
  - change (trace (?a :: ?l, ?r)) with ([a] ++ l).
    rewrite files_opened_app, lines_read_app, Hr, Hf.
    repeat split; discriminate.
  - repeat split; discriminate.
Qed.

(** The trainer spec before any file is read, and between the files. *)
Lemma main_trainer_spec_eq :
  main_trainer_spec GetFlag StrSplitAsCSV NewReadableFile as_field
  = let ts0 :=
      SetTrainerSpecFromFlags GetFlag as_field lines_217_249
        (SetRepeatedTrainerSpecFromFlag GetFlag StrSplitAsCSV "input"
           TrainerSpec_new) in
    let between ts :=
      SetTrainerSpecFromFlags GetFlag as_field lines_255_259
        (SetRepeatedTrainerSpecFromFlag GetFlag StrSplitAsCSV
           "user_defined_symbols"
           (SetRepeatedTrainerSpecFromFlag GetFlag StrSplitAsCSV
              "control_symbols"
              (SetRepeatedTrainerSpecFromFlag GetFlag StrSplitAsCSV
                 "accept_language"
                 (SetTrainerSpecFromFlag GetFlag as_field
                    "vocabulary_output_piece_score" ts)))) in
    bind (SetTrainerSpecFromFile GetFlag NewReadableFile as_field "required_chars"
            ts0)
      (fun ts1 =>
         bind (SetRepeatedTrainerSpecFromFile GetFlag NewReadableFile
                 "control_symbols" (between ts1))
           (SetRepeatedTrainerSpecFromFile GetFlag NewReadableFile
              "user_defined_symbols")).
Proof. reflexivity. Qed.

End TrainerSpecFacts.

Section TrainerSpecRuns.

Import spm_train_macros.

Context {Real : Type}.
Variable GetFlag : string -> Value Real.
Variable StrSplitAsCSV : string -> list string.
Variable NewReadableFile : string -> Status * list string.
Variable as_field : string -> Value Real -> Value Real.

Lemma bind_nil {A B : Type} (a : A) (k : A -> Proc Event B) :
  bind ([], Done a) k = k a.
Proof. apply (bind_ret_l a k). Qed.

Lemma bind_pair_Done {A B : Type} t (a : A) (k : A -> Proc Event B) :
  bind (t, Done a) k = (t ++ trace (k a), result (k a)).
Proof. simpl. destruct (k a). reflexivity. Qed.

Lemma bind_pair_Died {A B : Type} t why (k : A -> Proc Event B) :
  bind (t, Died why) k = (t, Died why).
Proof. reflexivity. Qed.

(** When the spec is filled, every file named by a [_file] flag has
    opened, and the spec is the one built from the flags and the lines of
    those files. *)
Lemma main_trainer_spec_done ts :
  result (main_trainer_spec GetFlag StrSplitAsCSV NewReadableFile as_field)
  = Done ts ->
  file_usable GetFlag NewReadableFile "required_chars" = true
  /\ file_usable GetFlag NewReadableFile "control_symbols" = true
  /\ file_usable GetFlag NewReadableFile "user_defined_symbols" = true
  /\ ts
     = add_each "user_defined_symbols"
         (file_items GetFlag NewReadableFile "user_defined_symbols")
         (add_each "control_symbols"
            (file_items GetFlag NewReadableFile "control_symbols")
            (SetTrainerSpecFromFlags GetFlag as_field lines_255_259
               (SetRepeatedTrainerSpecFromFlag GetFlag StrSplitAsCSV
                  "user_defined_symbols"
                  (SetRepeatedTrainerSpecFromFlag GetFlag StrSplitAsCSV
                     "control_symbols"
                     (SetRepeatedTrainerSpecFromFlag GetFlag StrSplitAsCSV
                        "accept_language"
                        (SetTrainerSpecFromFlag GetFlag as_field
                           "vocabulary_output_piece_score"
                           (let ts0 :=
                              SetTrainerSpecFromFlags GetFlag as_field lines_217_249
                                (SetRepeatedTrainerSpecFromFlag GetFlag
                                   StrSplitAsCSV "input" TrainerSpec_new) in
                            if empty (string_of
                                        (GetFlag "required_chars_file"))
                            then ts0
                            else set_ "required_chars"
                                   (as_field "required_chars"
                                      (VString
                                         (String.concat ""
                                            (snd (NewReadableFile
                                                    (string_of
                                                       (GetFlag
                                                          "required_chars_file")))))))
                                   ts0))))))).
Proof.
  rewrite main_trainer_spec_eq. cbv zeta.
  unfold file_usable, file_items.
  rewrite SetTrainerSpecFromFile_eq. cbv zeta.
  change ("required_chars" ++ "_file")%string with "required_chars_file".
  change ("control_symbols" ++ "_file")%string with "control_symbols_file".
  change ("user_defined_symbols" ++ "_file")%string
    with "user_defined_symbols_file".
  destruct (empty (string_of (GetFlag "required_chars_file")));
    [| destruct (NewReadableFile
                   (string_of (GetFlag "required_chars_file")))
         as [st1 s1]; destruct (ok st1) eqn:Hok1];
    rewrite ?bind_nil, ?bind_pair_Done, ?bind_pair_Died;
    change (result (?t, ?r)) with r; try discriminate;
    rewrite SetRepeatedTrainerSpecFromFile_eq; cbv zeta;
    change ("control_symbols" ++ "_file")%string
      with "control_symbols_file";
    (destruct (empty (string_of (GetFlag "control_symbols_file")));
     [| destruct (NewReadableFile
                    (string_of (GetFlag "control_symbols_file")))
          as [st2 s2]; destruct (ok st2) eqn:Hok2]);
    rewrite ?bind_nil, ?bind_pair_Done, ?bind_pair_Died;
    change (result (?t, ?r)) with r; try discriminate;
    rewrite SetRepeatedTrainerSpecFromFile_eq; cbv zeta;
    change ("user_defined_symbols" ++ "_file")%string
      with "user_defined_symbols_file";
    (destruct (empty (string_of (GetFlag "user_defined_symbols_file")));
     [| destruct (NewReadableFile
                    (string_of (GetFlag "user_defined_symbols_file")))
          as [st3 s3]; destruct (ok st3) eqn:Hok3]);
    change (result (?t, ?r)) with r; try discriminate;
    intros [= <-]; repeat split; assumption.
Qed.

Lemma files_opened_load (filename : string) (stream : list string) :
  files_opened (EvNewReadableFile filename :: map EvReadLine stream)
  = [filename].
Proof.
  change (files_opened ([EvNewReadableFile filename]
                          ++ map EvReadLine stream) = [filename]).
  rewrite files_opened_app.
  rewrite (proj2 (lines_read_map_EvReadLine stream)). reflexivity.
Qed.

(** X16: the trainer spec is filled exactly when every [_file] flag is
    empty or names a file that opens.  The files are read in the order
    required_chars_file, control_symbols_file, user_defined_symbols_file,
    and the run ends at the first that does not open, with that file's
    status: it is the last file opened. *)
Theorem trainer_spec_needs_its_files :
  let run := main_trainer_spec GetFlag StrSplitAsCSV NewReadableFile as_field in
  let names :=
    ["required_chars"; "control_symbols"; "user_defined_symbols"] in
  let unusable name := negb (file_usable GetFlag NewReadableFile name) in
  ((exists ts, result run = Done ts) <-> find unusable names = None)
  /\ forall why,
       result run = Died why ->
       exists name,
         find unusable names = Some name
         /\ why = CheckOkFailed
                    (fst (NewReadableFile
                            (string_of (GetFlag (name ++ "_file")))))
         /\ last (files_opened (trace run)) ""
            = string_of (GetFlag (name ++ "_file")).
Proof.
  cbv zeta. rewrite main_trainer_spec_eq. cbv zeta.
  unfold find, file_usable.
  rewrite SetTrainerSpecFromFile_eq. cbv zeta.
  cbn [String.append].
  destruct (empty (string_of (GetFlag "required_chars_file")));
    [| destruct (NewReadableFile
                   (string_of (GetFlag "required_chars_file")))
         as [st1 s1] eqn:Hf1; destruct (ok st1) eqn:Hok1];
    rewrite ?bind_nil, ?bind_pair_Done, ?bind_pair_Died;
    try (rewrite SetRepeatedTrainerSpecFromFile_eq; cbv zeta;
         cbn [String.append];
         (destruct (empty (string_of (GetFlag "control_symbols_file")));
          [| destruct (NewReadableFile
                         (string_of (GetFlag "control_symbols_file")))
               as [st2 s2] eqn:Hf2; destruct (ok st2) eqn:Hok2]);
         rewrite ?bind_nil, ?bind_pair_Done, ?bind_pair_Died;
         try (rewrite SetRepeatedTrainerSpecFromFile_eq; cbv zeta;
              cbn [String.append];
              (destruct (empty (string_of
                                  (GetFlag "user_defined_symbols_file")));
               [| destruct (NewReadableFile
                              (string_of
                                 (GetFlag "user_defined_symbols_file")))
                    as [st3 s3] eqn:Hf3; destruct (ok st3) eqn:Hok3])));
    unfold trace, result; cbn [fst snd];
    rewrite ?Hok1, ?Hok2, ?Hok3; cbv [negb orb];
    rewrite ?files_opened_app, ?files_opened_load;
    (split;
     [ split;
       [ intros [ts Hdone]; solve [reflexivity | discriminate]
       | intros Hfound; solve [eauto | discriminate] ]
     | intros why Hdied;
       first
         [ discriminate
         | injection Hdied as <-; eexists;
           split; [reflexivity |]; cbn [String.append];
           rewrite ?Hf1, ?Hf2, ?Hf3; split; reflexivity ] ]).
Qed.


(** X18: in a filled trainer spec, input and accept_language hold the
    items of their comma-separated flags; control_symbols and
    user_defined_symbols hold the items of their flags followed by the
    lines of their files, so that flag and file add up instead of one
    replacing the other.  No other repeated field has an entry. *)
Theorem trainer_spec_repeated ts n :
  result (main_trainer_spec GetFlag StrSplitAsCSV NewReadableFile as_field)
  = Done ts ->
  repeated ts n
  = if String.eqb n "input"
    then flag_items GetFlag StrSplitAsCSV "input"
    else if String.eqb n "accept_language"
    then flag_items GetFlag StrSplitAsCSV "accept_language"
    else if String.eqb n "control_symbols"
    then flag_items GetFlag StrSplitAsCSV "control_symbols"
         ++ file_items GetFlag NewReadableFile "control_symbols"
    else if String.eqb n "user_defined_symbols"
    then flag_items GetFlag StrSplitAsCSV "user_defined_symbols"
         ++ file_items GetFlag NewReadableFile "user_defined_symbols"
    else [].
Proof.
  intros Hdone.
  destruct (main_trainer_spec_done ts Hdone) as (_ & _ & _ & ->).
  clear Hdone. cbv zeta.
  rewrite !repeated_add_each, repeated_SetTrainerSpecFromFlags,
    !repeated_SetRepeatedTrainerSpecFromFlag,
    repeated_SetTrainerSpecFromFlag, repeated_if, repeated_set_,
    repeated_SetTrainerSpecFromFlags,
    repeated_SetRepeatedTrainerSpecFromFlag.
  cbn [repeated TrainerSpec_new app].
  replace (if empty (string_of (GetFlag "required_chars_file"))
           then if String.eqb n "input"
                then flag_items GetFlag StrSplitAsCSV "input" else []
           else if String.eqb n "input"
                then flag_items GetFlag StrSplitAsCSV "input" else [])
    with (if String.eqb n "input"
          then flag_items GetFlag StrSplitAsCSV "input" else [])
    by (destruct (empty (string_of (GetFlag "required_chars_file")));
        reflexivity).
  destruct (String.eqb_spec n "input") as [Hn |];
    [rewrite Hn; simpl; rewrite ?app_nil_r; reflexivity |].
  destruct (String.eqb_spec n "accept_language") as [Hn |];
    [rewrite Hn; simpl; rewrite ?app_nil_r; reflexivity |].
  destruct (String.eqb_spec n "control_symbols") as [Hn |];
    [rewrite Hn; simpl; rewrite ?app_nil_r; reflexivity |].
  destruct (String.eqb_spec n "user_defined_symbols") as [Hn |];
    simpl; rewrite ?app_nil_r; reflexivity.
Qed.

End TrainerSpecRuns.

Lemma load_lines_returns_the_lines_witness :
  result (spm_train_macros.load_lines scenario.files "chars.txt")
  = Done ["ab"; "c"]
  /\ result (spm_train_macros.load_lines scenario.files "nowhere.txt")
     = Died (CheckOkFailed (ErrorStatus "No such file or directory")).
Proof.
  split.
  - destruct (load_lines_returns_the_lines scenario.files "chars.txt")
      as (_ & Hopens & _).
    exact (proj1 (Hopens eq_refl)).
  - destruct (load_lines_returns_the_lines scenario.files "nowhere.txt")
      as (_ & _ & Hfails).
    exact (proj1 (Hfails eq_refl)).
Defined.

Lemma trainer_spec_needs_its_files_witness :
  last (files_opened
          (trace (spm_train_macros.main_trainer_spec scenario.train_flags
                    scenario.split_csv scenario.files scenario.stored_as_given))) ""
  = "nowhere.txt".
Proof.
  destruct (trainer_spec_needs_its_files scenario.train_flags
              scenario.split_csv scenario.files scenario.stored_as_given) as [_ Hdied].
  destruct (Hdied (CheckOkFailed (ErrorStatus "No such file or directory"))
              eq_refl) as (name & Hfind & _ & Hlast).
  vm_compute in Hfind. injection Hfind as <-. exact Hlast.
Defined.


Lemma trainer_spec_repeated_witness :
  exists ts,
    result (spm_train_macros.main_trainer_spec scenario.train_flags_ok
              scenario.split_csv scenario.files scenario.stored_as_given) = Done ts
    /\ spm_train_macros.repeated ts "control_symbols"
       = ["<a>"; "<b>"; "<c>"; "<d>"]
    /\ spm_train_macros.repeated ts "input" = ["a.txt"; "b.txt"].
Proof.
  eexists. split; [reflexivity |]. split.
  - rewrite (trainer_spec_repeated scenario.train_flags_ok scenario.split_csv
               scenario.files scenario.stored_as_given _ "control_symbols" eq_refl).
    reflexivity.
  - rewrite (trainer_spec_repeated scenario.train_flags_ok scenario.split_csv
               scenario.files scenario.stored_as_given _ "input" eq_refl).
    reflexivity.
Defined.

Lemma normalize_outcomes_witness :
  exists message,
    result (spm_normalize.main sample.world spm_normalize.default_flags
              ["spm_normalize"])
    = Died (FatalLog message).
Proof.
  apply (proj1 (normalize_outcomes sample.world spm_normalize.default_flags
                  ["spm_normalize"])).
  - reflexivity.
  - cbv. discriminate.
Defined.

(** ** Precedence among the rule sources, and among the input names *)

Section Precedence.

Import spm_normalize.

Variable env : Collaborators.
Variable flags : Flags.

(** Outside decompile mode, a run with the spec resolved builds one engine,
    from that spec. *)
Lemma main_engines_built argv spec :
  FLAGS_decompile flags = false ->
  result (main_spec env flags) = Done spec ->
  engines_built (trace (main env flags argv)) = [spec].
Proof.
  intros Hdec Hres.
  rewrite (main_normalizing env flags argv spec Hdec Hres). cbv zeta.
  destruct (textless_projections _ (main_spec_textless env flags))
    as (_ & _ & _ & Se & _).
  destruct (main_read_files_any env (mkNormalizer spec)
              (main_input_files (main_rest_args flags argv)))
    as (_ & _ & _ & Le).
  destruct (ok (NewWritableFile env (FLAGS_output flags))).
  - change (trace (?a ++ ?b :: ?c :: ?d, ?r)) with (a ++ [b; c] ++ d).
    autorewrite with projections. rewrite Se, Le. reflexivity.
  - change (trace (?a ++ ?l, ?r)) with (a ++ l).
    autorewrite with projections. rewrite Se. reflexivity.
Qed.

(** In decompile mode, a run with the spec resolved goes on to decompile
    the charsmap of that spec. *)
Lemma main_decompiles argv spec :
  FLAGS_decompile flags = true ->
  result (main_spec env flags) = Done spec ->
  exists t,
    trace (main env flags argv)
    = trace (main_load_spec env flags)
      ++ EvDecompileCharsMap (precompiled_charsmap_bytes spec) :: t.
Proof.
  intros Hdec Hres.
  rewrite (main_decompiling env flags argv spec Hdec Hres). cbv zeta.
  rewrite main_spec_trace.
  destruct (DecompileCharsMap env _) as [st chars_map].
  destruct (ok st); change (trace (?a, ?r)) with a; eexists; reflexivity.
Qed.

Lemma main_override_flags_bytes spec :
  precompiled_charsmap_bytes (main_override_flags flags spec)
  = precompiled_charsmap_bytes spec.
Proof.
  unfold precompiled_charsmap_bytes.
  rewrite main_override_flags_charsmap. reflexivity.
Qed.

(** C4: when a model is supplied, the spec comes from the model, whatever
    the rule TSV and rule name flags hold: the model is the only source
    loaded and nothing is populated; the engine [main] builds has the
    model's compiled charsmap and, in "as trained" mode, is built from the
    model's spec as it is; and in decompile mode it is the model's charsmap
    that is decompiled.  When no model is supplied but a rule TSV is, the
    one spec populated has the TSV set and no name, whatever the rule name
    flag holds, and the engine is built from what was populated (or its
    charsmap decompiled). *)
Theorem model_then_tsv_then_name argv :
  (empty (FLAGS_model flags) = false ->
   main_load_spec env flags
   = ([EvLoad (FLAGS_model flags)],
      let (st, model_proto) := Processor_Load env (FLAGS_model flags) in
      if ok st then Done (normalizer_spec model_proto)
      else Died (CheckOkFailed st))
   /\ forall model_proto,
        Processor_Load env (FLAGS_model flags) = (OkStatus, model_proto) ->
        exists spec,
          main_spec env flags = ([EvLoad (FLAGS_model flags)], Done spec)
          /\ precompiled_charsmap spec
             = precompiled_charsmap (normalizer_spec model_proto)
          /\ (FLAGS_use_internal_normalization flags = true ->
              spec = normalizer_spec model_proto)
          /\ specs_populated (trace (main env flags argv)) = []
          /\ (FLAGS_decompile flags = false ->
              engines_built (trace (main env flags argv)) = [spec])
          /\ (FLAGS_decompile flags = true ->
              exists t,
                trace (main env flags argv)
                = EvLoad (FLAGS_model flags)
                  :: EvDecompileCharsMap
                       (precompiled_charsmap_bytes
                          (normalizer_spec model_proto))
                  :: t))
  /\ (empty (FLAGS_model flags) = true ->
      empty (FLAGS_normalization_rule_tsv flags) = false ->
      let tsv_only :=
        {| name := None;
           precompiled_charsmap := None;
           add_dummy_prefix := None;
           remove_extra_whitespaces := None;
           escape_whitespaces := None;
           normalization_rule_tsv :=
             Some (FLAGS_normalization_rule_tsv flags) |} in
      main_load_spec env flags
      = ([EvPopulateNormalizerSpec tsv_only],
         let (st, spec') := PopulateNormalizerSpec env tsv_only in
         if ok st then Done spec' else Died (CheckOkFailed st))
      /\ specs_populated (trace (main env flags argv)) = [tsv_only]
      /\ forall populated,
           PopulateNormalizerSpec env tsv_only = (OkStatus, populated) ->
           (FLAGS_decompile flags = false ->
            engines_built (trace (main env flags argv))
            = [main_override_flags flags populated])
           /\ (FLAGS_decompile flags = true ->
               exists t,
                 trace (main env flags argv)
                 = EvPopulateNormalizerSpec tsv_only
                   :: EvDecompileCharsMap
                        (precompiled_charsmap_bytes populated)
                   :: t)).
Proof.
  split.
  - intros Hmodel.
    pose proof (main_load_spec_model env flags Hmodel) as Hload.
    split; [exact Hload |].
    intros model_proto Hopen. rewrite Hopen in Hload. simpl in Hload.
    assert (Hspec : main_spec env flags
                    = ([EvLoad (FLAGS_model flags)],
                       Done (main_override_flags flags
                               (normalizer_spec model_proto))))
      by (unfold main_spec; rewrite Hload; reflexivity).
    assert (Hres : result (main_spec env flags)
                   = Done (main_override_flags flags
                             (normalizer_spec model_proto)))
      by (rewrite Hspec; reflexivity).
    exists (main_override_flags flags (normalizer_spec model_proto)).
    split; [exact Hspec | split; [| split; [| split; [| split]]]].
    + apply main_override_flags_charsmap.
    + intros Hmode. unfold main_override_flags. rewrite Hmode. reflexivity.
    + rewrite main_specs_populated, Hload. reflexivity.
    + intros Hdec. apply main_engines_built; assumption.
    + intros Hdec.
      destruct (main_decompiles argv _ Hdec Hres) as [t Ht].
      exists t. rewrite Ht, Hload, main_override_flags_bytes. reflexivity.
  - intros Hmodel Htsv. cbv zeta.
    pose proof (main_load_spec_tsv env flags Hmodel Htsv) as Hload.
    cbv zeta in Hload.
    split; [exact Hload | split].
    + rewrite main_specs_populated, Hload.
      destruct (PopulateNormalizerSpec env _) as [st s].
      destruct (ok st); reflexivity.
    + intros populated Hpopulated.
      unfold set_normalization_rule_tsv, NormalizerSpec_new in Hload.
      simpl in Hload. rewrite Hpopulated in Hload. simpl in Hload.
      assert (Hres : result (main_spec env flags)
                     = Done (main_override_flags flags populated))
        by (rewrite main_spec_result, Hload; reflexivity).
      split; intros Hdec.
      * apply main_engines_built; assumption.
      * destruct (main_decompiles argv _ Hdec Hres) as [t Ht].
        exists t. rewrite Ht, Hload, main_override_flags_bytes.
        reflexivity.
Qed.

(** With --input given, [main] does not look at the positional
    arguments. *)
Lemma main_ignores_positionals argv argv' :
  empty (FLAGS_input flags) = false ->
  main env flags argv' = main env flags argv.
Proof.
  intros Hinput. unfold main, main_rest_args. rewrite Hinput. reflexivity.
Qed.

(** C8: when --input is not empty, the positional arguments are ignored
    altogether: the run is the same whatever they are.  The input list is
    the one file --input names; no run opens any other input file; a run
    that reaches the loop opens exactly that file, and when it opens, the
    run reads its lines, all of them and no others, writes their
    normalizations and returns.  When --input is empty, the input list is
    the positional arguments: a run that reaches the loop with at least
    one of them, all of which open, opens them in order and reads exactly
    their lines. *)
Theorem input_flag_overrides_positionals argv :
  (empty (FLAGS_input flags) = false ->
   main_rest_args flags argv = [FLAGS_input flags]
   /\ (forall argv', main env flags argv' = main env flags argv)
   /\ incl (files_opened (trace (main env flags argv))) [FLAGS_input flags]
   /\ forall spec,
        FLAGS_decompile flags = false ->
        result (main_spec env flags) = Done spec ->
        ok (NewWritableFile env (FLAGS_output flags)) = true ->
        files_opened (trace (main env flags argv)) = [FLAGS_input flags]
        /\ forall lines,
             NewReadableFile env (FLAGS_input flags) = (OkStatus, lines) ->
             lines_read (trace (main env flags argv)) = lines
             /\ lines_written (trace (main env flags argv))
                = map (Normalize env (mkNormalizer spec)) lines
             /\ result (main env flags argv) = Done 0%Z)
  /\ (empty (FLAGS_input flags) = true ->
      main_rest_args flags argv = tl argv
      /\ forall spec,
           FLAGS_decompile flags = false ->
           result (main_spec env flags) = Done spec ->
           ok (NewWritableFile env (FLAGS_output flags)) = true ->
           tl argv <> [] ->
           Forall (fun f => ok (fst (NewReadableFile env f)) = true)
             (tl argv) ->
           files_opened (trace (main env flags argv)) = tl argv
           /\ lines_read (trace (main env flags argv))
              = flat_map (fun f => snd (NewReadableFile env f)) (tl argv)
           /\ result (main env flags argv) = Done 0%Z).
Proof.
  split; intros Hinput.
  - assert (Hargs : main_rest_args flags argv = [FLAGS_input flags])
      by (unfold main_rest_args; rewrite Hinput; reflexivity).
    split; [exact Hargs | split; [| split]].
    + intros argv'. apply main_ignores_positionals. exact Hinput.
    + pose proof (main_files_opened env flags argv) as Hincl.
      rewrite Hargs in Hincl. exact Hincl.
    + intros spec Hdec Hres Hout.
      destruct (main_files_opened_loop env flags argv spec Hdec Hres Hout)
        as (Hf & Hl & Hr).
      rewrite (main_lines_written env flags argv spec Hdec Hres).
      rewrite Hf, Hl, Hr, Hargs. cbn [main_input_files].
      split; [apply main_read_files_single |].
      intros lines Hopen.
      destruct (main_read_files_all_ok env (mkNormalizer spec)
                  [FLAGS_input flags]) as (-> & _ & ->).
      * constructor; [rewrite Hopen; reflexivity | constructor].
      * simpl. rewrite Hopen, app_nil_r. repeat split.
  - assert (Hargs : main_rest_args flags argv = tl argv)
      by (unfold main_rest_args; rewrite Hinput;
          apply positional_arguments).
    split; [exact Hargs |].
    intros spec Hdec Hres Hout Hsome Hopen.
    destruct (main_files_opened_loop env flags argv spec Hdec Hres Hout)
      as (Hf & Hl & Hr).
    rewrite Hf, Hl, Hr, Hargs.
    assert (Hfiles : main_input_files (tl argv) = tl argv)
      by (destruct (tl argv); [contradiction | reflexivity]).
    rewrite Hfiles.
    destruct (main_read_files_all_ok env (mkNormalizer spec) (tl argv)
                Hopen) as (-> & -> & ->).
    repeat split.
Qed.

End Precedence.

Lemma model_then_tsv_then_name_witness :
  engines_built
    (trace (spm_normalize.main sample.world sample.three_sources
              ["spm_normalize"; "a.txt"]))
  = [spm_normalize.main_override_flags sample.three_sources
       sample.model_spec]
  /\ specs_populated
       (trace (spm_normalize.main sample.world scenario.tsv_and_name
                 ["spm_normalize"; "b.txt"]))
     = [{| name := None;
           precompiled_charsmap := None;
           add_dummy_prefix := None;
           remove_extra_whitespaces := None;
           escape_whitespaces := None;
           normalization_rule_tsv := Some "rules.tsv" |}]
  /\ engines_built
       (trace (spm_normalize.main sample.world scenario.tsv_and_name
                 ["spm_normalize"; "b.txt"]))
     = [{| name := None;
           precompiled_charsmap := Some "<compiled blob>";
           add_dummy_prefix := Some false;
           remove_extra_whitespaces := Some true;
           escape_whitespaces := Some false;
           normalization_rule_tsv := Some "rules.tsv" |}].
Proof.
  split; [| split].
  - destruct (model_then_tsv_then_name sample.world sample.three_sources
                ["spm_normalize"; "a.txt"]) as [Hmodel _].
    destruct (Hmodel eq_refl) as [_ Hloaded].
    destruct (Hloaded (mkModelProto sample.model_spec) eq_refl)
      as (spec & Hspec & _ & _ & _ & Hengine & _).
    injection Hspec as <-. exact (Hengine eq_refl).
  - destruct (model_then_tsv_then_name sample.world scenario.tsv_and_name
                ["spm_normalize"; "b.txt"]) as [_ Htsv].
    exact (proj1 (proj2 (Htsv eq_refl eq_refl))).
  - destruct (model_then_tsv_then_name sample.world scenario.tsv_and_name
                ["spm_normalize"; "b.txt"]) as [_ Htsv].
    destruct (Htsv eq_refl eq_refl) as (_ & _ & Hpopulated).
    exact (proj1 (Hpopulated _ eq_refl) eq_refl).
Defined.

Lemma input_flag_overrides_positionals_witness :
  lines_read
    (trace (spm_normalize.main sample.world sample.as_trained
              ["spm_normalize"; "b.txt"; "nowhere.txt"]))
  = ["a one"; "a two"]
  /\ spm_normalize.main sample.world sample.as_trained []
     = spm_normalize.main sample.world sample.as_trained
         ["spm_normalize"; "b.txt"; "nowhere.txt"]
  /\ lines_read
       (trace (spm_normalize.main sample.world sample.only_rule_tsv
                 ["spm_normalize"; "b.txt"; "a.txt"]))
     = ["b one"; "a one"; "a two"].
Proof.
  split; [| split].
  - destruct (input_flag_overrides_positionals sample.world
                sample.as_trained
                ["spm_normalize"; "b.txt"; "nowhere.txt"]) as [Hnamed _].
    destruct (Hnamed eq_refl) as (_ & _ & _ & Hrun).
    destruct (Hrun sample.model_spec eq_refl eq_refl eq_refl)
      as [_ Hlines].
    exact (proj1 (Hlines ["a one"; "a two"] eq_refl)).
  - destruct (input_flag_overrides_positionals sample.world
                sample.as_trained
                ["spm_normalize"; "b.txt"; "nowhere.txt"]) as [Hnamed _].
    destruct (Hnamed eq_refl) as (_ & Hsame & _).
    exact (Hsame []).
  - destruct (input_flag_overrides_positionals sample.world
                sample.only_rule_tsv
                ["spm_normalize"; "b.txt"; "a.txt"]) as [_ Hpositional].
    destruct (Hpositional eq_refl) as [_ Hrun].
    assert (Hopen : Forall
              (fun f =>
                 ok (fst (spm_normalize.NewReadableFile sample.world f))
                 = true) ["b.txt"; "a.txt"])
      by (repeat constructor).
    assert (Hsome : tl ["spm_normalize"; "b.txt"; "a.txt"] <> [])
      by discriminate.
    exact (proj1 (proj2 (Hrun
             (spm_normalize.main_override_flags sample.only_rule_tsv
                (sample.populate
                   (set_normalization_rule_tsv "rules.tsv"
                      NormalizerSpec_new)))
             eq_refl eq_refl eq_refl Hsome Hopen))).
Defined.
